(** * FrameForge: the video operation engine of [FrameForge.py]

    A shallow embedding of the parts of [FrameForge.py] that decide what is
    sent to the external tools: the extension tables, the metadata probe
    ([FFmpegGUI.update_video_frame_rate], [FFmpegGUI.has_audio]) and the
    [create_video] / [extract_audio] slots of the pages.

    Conventions of the embedding.
    - Python [str] is [string] (a byte string); [str.lower], [str.strip]
      and the [?] of [fnmatch] act on bytes. They are what Python does on
      ASCII text; a statement that depends on a string not passing a test
      assumes the string to be ASCII ([isascii]).
    - Python [int] is [Z].  A Python [float] is modelled by the rational it
      denotes (plus the two infinities and NaN where the code can meet
      them); the range and the rounding of binary64 arithmetic are not
      modelled. Quotients, products and sums are exact here; a statement
      that depends on their value bounds its operands to a range in which
      the binary64 result leads to the same integer or the same comparison
      (the bounds are given with each definition).
    - Paths are POSIX paths.
    - The order in which a directory lists its entries is the order of the
      list [images_dir_files]; what a listing made after files were added
      or removed looks like is platform-defined, and statements about it
      are made up to the order of the entries.
    - The Qt widgets are left out; what a slot shows to the user through
      [MessageUtils] is recorded as an event, and so is every
      [subprocess.run], every file copy and every file removal.
    - The [print] calls tagged [[DEBUG]] are left out; the error print of the
      probe is kept. *)

From Stdlib Require Import Ascii String QArith Qround.
From stdpp Require Import base strings list gmap pretty.

Local Open Scope string_scope.
Local Open Scope list_scope.
Local Open Scope Z_scope.

(** ** Strings and paths *)

Module PyStr.

(** [str.lower] on ASCII text: the letters A to Z are lowered and every
    other byte is kept. On text outside ASCII Python lowers more (the
    Kelvin sign becomes [k]), so the result is Python's for [isascii]
    strings only. *)
Definition lower_char (c : ascii) : ascii :=
  let n := N_of_ascii c in
  if ((65 <=? n) && (n <=? 90))%N then ascii_of_N (n + 32) else c.

Fixpoint lower (s : string) : string :=
  match s with
  | EmptyString => EmptyString
  | String c s' => String (lower_char c) (lower s')
  end.

(** [str.isspace] on one character, ASCII range: TAB, LF, VT, FF, CR,
    the four separators 0x1c..0x1f and the space. *)
Definition is_space (c : ascii) : bool :=
  let n := N_of_ascii c in
  (((9 <=? n) && (n <=? 13)) || ((28 <=? n) && (n <=? 32)))%N.

Fixpoint lstrip (s : string) : string :=
  match s with
  | String c s' => if is_space c then lstrip s' else s
  | EmptyString => EmptyString
  end.

Fixpoint rstrip (s : string) : string :=
  match s with
  | EmptyString => EmptyString
  | String c s' =>
      match rstrip s' with
      | EmptyString => if is_space c then EmptyString else String c EmptyString
      | r => String c r
      end
  end.

(** [s.strip()] *)
Definition strip (s : string) : string := rstrip (lstrip s).

(** [s.split(sep)] for a one-character separator: never the empty list. *)
Fixpoint split (sep : ascii) (s : string) : list string :=
  match s with
  | EmptyString => [EmptyString]
  | String c s' =>
      if Ascii.eqb c sep then EmptyString :: split sep s'
      else match split sep s' with
           | p :: ps => String c p :: ps
           | [] => [String c EmptyString]
           end
  end.

(** [s.rfind('.')], counted from [pos]; [None] is Python's [-1]. *)
Fixpoint rfind_dot (s : string) (pos : nat) : option nat :=
  match s with
  | EmptyString => None
  | String c s' =>
      match rfind_dot s' (S pos) with
      | Some i => Some i
      | None => if Ascii.eqb c "." then Some pos else None
      end
  end.

(** [x in l] for a list of strings. *)
Definition mem (x : string) (l : list string) : bool := bool_decide (x ∈ l).

(** [str(n)] for an [int]. *)
Definition str_int (n : Z) : string := pretty n.

(** [f'{n:02d}']: at least two digits, padded with a zero. *)
Definition format_02d (n : Z) : string :=
  if ((0 <=? n) && (n <? 10))%Z then "0" +:+ pretty n else pretty n.

End PyStr.

Module PathLib.

(** [PurePath.name] for a POSIX path: the last component, where empty
    components and ["."] components do not count. *)
Definition name (p : string) : string :=
  List.last (List.filter (λ x, negb (String.eqb x "") && negb (String.eqb x "."))
               (PyStr.split "/" p)) "".

(** [PurePath.suffix]:
    [i = name.rfind('.'); name[i:] if 0 < i < len(name) - 1 else ''] *)
Definition suffix (p : string) : string :=
  let n := name p in
  match PyStr.rfind_dot n 0 with
  | Some i =>
      if ((0 <? i) && (S i <? String.length n))%nat
      then substring i (String.length n - i) n
      else ""
  | None => ""
  end.

(** [os.path.join(a, b)], POSIX. *)
Definition join (a b : string) : string :=
  match b with
  | String "/" _ => b
  | _ =>
      match String.rev a with
      | EmptyString => b
      | String "/" _ => a +:+ b
      | _ => a +:+ "/" +:+ b
      end
  end.

End PathLib.

(** [pathlib.Path(p).suffix.lower()], the expression every page starts with. *)
Definition ext_of (p : string) : string := PyStr.lower (PathLib.suffix p).

(** ** The extension tables *)

Definition AUDIO_EXTENSIONS : list string :=
  [ ".mp3"; ".aac"; ".m4a"; ".m4b"; ".m4p"; ".wav"; ".flac"; ".alac"; ".ogg"; ".oga";
    ".opus"; ".wma"; ".aiff"; ".aif"; ".ape"; ".wv"; ".amr"; ".awb"; ".au"; ".ra";
    ".rm"; ".mp2"; ".mp1"; ".ac3"; ".dts"; ".caf"; ".voc"; ".tta"; ".mka"; ".spx";
    ".8svx"; ".gsm"; ".ivs"; ".sln"; ".vox"; ".rf64"; ".msv"; ".dvf"; ".act"; ".dss" ].

Definition IMAGE_EXTENSIONS : list string :=
  [ ".jpg"; ".jpeg"; ".jpe"; ".jfif"; ".pjpeg"; ".pjp";
    ".png"; ".gif"; ".bmp"; ".webp"; ".avif"; ".apng"; ".tif"; ".tiff";
    ".heif"; ".heic"; ".ico"; ".cur"; ".xbm"; ".svg"; ".svgz" ].

Definition VIDEO_EXTENSIONS : list string :=
  [ ".mp4"; ".m4v"; ".m4p"; ".mov"; ".qt"; ".avi"; ".wmv"; ".asf"; ".flv"; ".f4v";
    ".f4p"; ".f4a"; ".f4b"; ".webm"; ".mkv"; ".mpg"; ".mpeg"; ".mp2"; ".mpe"; ".mpv";
    ".vob"; ".dvd"; ".3gp"; ".3g2"; ".svi"; ".mxf"; ".ogv"; ".ogg"; ".amv"; ".rm";
    ".roq"; ".nsv"; ".yuv"; ".gifv"; ".mng"; ".rrc"; ".mod"; ".dv" ].

Definition AUDIO_CODEC_MAP : gmap string string :=
  list_to_map
    [ (".mp3", "libmp3lame"); (".flac", "flac"); (".wav", "pcm_s16le");
      (".aac", "aac"); (".m4a", "aac"); (".alac", "alac");
      (".ogg", "libvorbis"); (".opus", "libopus"); (".wma", "wmav2");
      (".amr", "libopencore_amrnb"); (".aiff", "pcm_s16be"); (".au", "pcm_mulaw");
      (".ac3", "ac3"); (".dts", "dca"); (".wv", "wavpack"); (".tta", "tta");
      (".mp2", "mp2"); (".caf", "pcm_s16le") ].


(** ** Python values and exceptions *)

Inductive exn : Type :=
  | ZeroDivisionError
  | ValueError
  | IndexError
  | OverflowError
  | KeyError (key : string)
  | OSError                                   (* the program could not be started *)
  | CalledProcessError (cmd : list string) (returncode : Z)
  | SameFileError (src dst : string)
  | FileNotFoundError (path : string).

Inductive outcome (A : Type) : Type :=
  | Returned (a : A)
  | Raised (e : exn).
Arguments Returned {A} a.
Arguments Raised {A} e.

(** A [float]: the rational it denotes, an infinity, or NaN. *)
Inductive pyfloat : Type :=
  | Finite (q : Q)
  | Inf (negative : bool)
  | NaN.

Module PyNum.

(** [int(x)] on a finite float truncates towards zero. *)
Definition Qtrunc (q : Q) : Z := Z.quot (Qnum q) (Z.pos (Qden q)).

(** [x / y] on floats, as the exact quotient. For two integers below
    [2^31] in absolute value the binary64 quotient lies strictly between
    the same two consecutive integers (or is the same integer), so
    [math.ceil] and [int] of it are those of the exact quotient; for other
    operands the rounded quotient can reach the next integer. *)
Definition float_div (x y : pyfloat) : outcome pyfloat :=
  match y with
  | Finite b =>
      if Qeq_bool b 0 then Raised ZeroDivisionError
      else match x with
           | Finite a => Returned (Finite (a / b))
           | Inf s => Returned (Inf (xorb s (negb (Qle_bool 0 b))))
           | NaN => Returned NaN
           end
  | Inf _ =>
      match x with
      | Finite _ => Returned (Finite 0)
      | _ => Returned NaN
      end
  | NaN => Returned NaN
  end.

(** [math.ceil(x)] *)
Definition math_ceil (x : pyfloat) : outcome Z :=
  match x with
  | Finite q => Returned (Qceiling q)
  | Inf _ => Raised OverflowError
  | NaN => Raised ValueError
  end.

(** [int(x)] for a float [x]. *)
Definition int_of_float (x : pyfloat) : outcome Z :=
  match x with
  | Finite q => Returned (Qtrunc q)
  | Inf _ => Raised OverflowError
  | NaN => Raised ValueError
  end.

(** [a / b] on ints (true division): the exact quotient, where Python
    rounds it to binary64. *)
Definition int_truediv (a b : Z) : outcome Q :=
  if b =? 0 then Raised ZeroDivisionError
  else Returned (inject_Z a / inject_Z b)%Q.

End PyNum.

(** ** The world outside the program *)

(** The files the program itself touches.  [cwd_files] are the names that
    exist in the working directory (where the encoder leaves its two-pass
    statistics).  [images_dir_files] are the entries of the directory that
    [main_window.images_dir] names, as [(name, contents)] in the order
    [os.listdir] reports them; [os.path.join(images_dir, n)] is entry [n].
    The directory is taken to exist and to hold regular files. *)
Record FileSystem : Type := {
  cwd_files : gset string;
  images_dir_files : list (string * string);
}.

(** What a finished child process leaves behind. *)
Record CompletedProcess : Type := {
  returncode : Z;
  stdout : string;
  stderr : string;
}.

(** The external tools: given the argument vector and the files, either the
    program cannot be started or it runs to completion and may have changed
    the files. *)
Record World : Type := {
  os_name_is_nt : bool;
  spawn : list string → FileSystem → option CompletedProcess * FileSystem;
}.

(** [MessageUtils]: the message boxes shown to the user. *)
Inductive failure_details : Type :=
  | Text (s : string)
  | ExnText (prefix : string) (e : exn)       (* f"{prefix}{e}" *)
  | ExnStderr (e : exn).                      (* e.stderr.decode() *)

Inductive message : Type :=
  | invalid_video
  | invalid_audio
  | no_audio_stream
  | file_exists
  | operation_failed (details : failure_details)
  | operation_success (text : string).

Inductive event : Type :=
  | Run (cmd : list string)                   (* subprocess.run(cmd, ...) *)
  | Show (m : message)                        (* a QMessageBox *)
  | PrintError (e : exn)                      (* print(f"Error getting video info: {e}") *)
  | Copy (src dst : string)                   (* shutil.copy(src, dst) *)
  | Remove (path : string).                   (* os.remove(path) *)

Record Sys : Type := {
  fs : FileSystem;
  trace : list event;
}.

(** ** Statements: state and exceptions *)

Definition M (A : Type) : Type := Sys → outcome A * Sys.

Global Instance M_ret : MRet M := λ A a s, (Returned a, s).

Global Instance M_bind : MBind M := λ A B f m s,
  match m s with
  | (Returned a, s') => f a s'
  | (Raised e, s') => (Raised e, s')
  end.

Definition raise {A} (e : exn) : M A := λ s, (Raised e, s).

(** Lift a computation that only returns or raises. *)
Definition lift {A} (o : outcome A) : M A := λ s, (o, s).

Definition emit (ev : event) : M unit := λ s,
  (Returned tt, {| fs := fs s; trace := trace s ++ [ev] |}).

(** [try: body except <classes>: handler]; [handler e = None] when the
    clause does not match [e]. *)
Definition try_except {A} (body : M A) (handler : exn → option (M A)) : M A := λ s,
  match body s with
  | (Raised e, s') =>
      match handler e with
      | Some h => h s'
      | None => (Raised e, s')
      end
  | r => r
  end.

(** [try: body finally: final] *)
Definition try_finally {A} (body : M A) (final : M unit) : M A := λ s,
  match body s with
  | (r, s') =>
      match final s' with
      | (Returned _, s'') => (r, s'')
      | (Raised e, s'') => (Raised e, s'')
      end
  end.

(** [except subprocess.CalledProcessError as e] *)
Definition on_CalledProcessError {A} (h : exn → M A) (e : exn) : option (M A) :=
  match e with
  | CalledProcessError _ _ => Some (h e)
  | _ => None
  end.

(** [except Exception as e] *)
Definition on_Exception {A} (h : exn → M A) (e : exn) : option (M A) := Some (h e).

(** [for x in xs: body x] *)
Fixpoint for_each {A} (xs : list A) (body : A → M unit) : M unit :=
  match xs with
  | [] => mret tt
  | x :: xs' => body x ;; for_each xs' body
  end.

Section Runtime.
Context (W : World).

(** [subprocess.run(cmd, check=check)] *)
Definition subprocess_run (check : bool) (cmd : list string) : M CompletedProcess := λ s,
  let '(r, fs') := spawn W cmd (fs s) in
  let s' := {| fs := fs'; trace := trace s ++ [Run cmd] |} in
  match r with
  | None => (Raised OSError, s')
  | Some p =>
      if check && negb (returncode p =? 0)
      then (Raised (CalledProcessError cmd (returncode p)), s')
      else (Returned p, s')
  end.

End Runtime.

(** [QMessageBox] through [MessageUtils]. *)
Definition show (m : message) : M unit := emit (Show m).

(** The encoder invocations of a trace, in order. *)
Definition is_encoder_run (ev : event) : bool :=
  match ev with
  | Run ("ffmpeg" :: _) => true
  | _ => false
  end.

Definition encoder_runs (t : list event) : list event := List.filter is_encoder_run t.

(** The paths a trace removes, in order. *)
Definition removed (t : list event) : list string :=
  omap (λ ev, match ev with Remove p => Some p | _ => None end) t.


(** The child ran to completion and exited with status 0. *)
Definition exited_ok (r : option CompletedProcess) : bool :=
  match r with
  | Some p => returncode p =? 0
  | None => false
  end.

(** The shared fields of [FFmpegGUI] ([_init_variables]). *)
Record MainWindow : Type := {
  images_dir : string;
  input_video : string;
  input_video_2 : string;
  output_video : string;
  output_audio : string;
  frame_rate : Z;
  video_duration : Z;
}.

Definition init_variables : MainWindow :=
  {| images_dir := ""; input_video := ""; input_video_2 := ""; output_video := "";
     output_audio := ""; frame_rate := 0; video_duration := 0 |}.

Definition initial (f : FileSystem) : Sys := {| fs := f; trace := [] |}.

(** ** [FFmpegGUI]: the metadata probe *)

Module FFmpegGUI.
Section Probe.
Context (W : World).
(** The builtin [float(s)] on a string; [None] is its [ValueError]. *)
Context (float : string → option pyfloat).

Definition py_float (s : string) : M pyfloat :=
  match float s with
  | Some x => mret x
  | None => raise ValueError
  end.

(** [l[i]] *)
Definition getitem (l : list string) (i : nat) : M string :=
  match l !! i with
  | Some x => mret x
  | None => raise IndexError
  end.

Definition frame_rate_query (filename : string) : list string :=
  [ "ffprobe"; "-v"; "error"; "-select_streams"; "v";
    "-of"; "default=noprint_wrappers=1:nokey=1";
    "-show_entries"; "stream=r_frame_rate"; filename ].

Definition duration_query (filename : string) : list string :=
  [ "ffprobe"; "-v"; "error"; "-show_entries"; "format=duration";
    "-of"; "default=noprint_wrappers=1:nokey=1"; filename ].

(** The body of the [try] of [update_video_frame_rate], up to the pair
    [(int(fps), int(duration))] that is assigned at its end. *)
Definition probe (filename : string) : M (Z * Z) :=
  fps_result ← subprocess_run W false (frame_rate_query filename);
  let fps_string := PyStr.split "/" (PyStr.strip (stdout fps_result)) in
  s0 ← getitem fps_string 0;
  num ← py_float s0;
  s1 ← getitem fps_string 1;
  den ← py_float s1;
  ratio ← lift (PyNum.float_div num den);
  fps ← lift (PyNum.math_ceil ratio);
  let fps := if fps <=? 0 then 1 else fps in
  duration_result ← subprocess_run W false (duration_query filename);
  duration ← py_float (PyStr.strip (stdout duration_result));
  d ← lift (PyNum.int_of_float duration);
  mret (fps, d).

Definition set_metadata (self : MainWindow) (m : Z * Z) : MainWindow :=
  {| images_dir := images_dir self; input_video := input_video self;
     input_video_2 := input_video_2 self; output_video := output_video self;
     output_audio := output_audio self;
     frame_rate := m.1; video_duration := m.2 |}.

Definition update_video_frame_rate (self : MainWindow) (filename : string) : M MainWindow :=
  try_except
    (m ← probe filename; mret (set_metadata self m))
    (on_Exception (λ e, emit (PrintError e) ;; mret self)).

Definition stream_query (video_path : string) : list string :=
  [ "ffprobe"; "-i"; video_path; "-show_streams"; "-select_streams"; "a";
    "-loglevel"; "error" ].

(** [bool(result.stdout)]: the output is not empty. *)
Definition has_audio (video_path : string) : M bool :=
  result ← subprocess_run W false (stream_query video_path);
  mret (negb (String.eqb (stdout result) "")).

End Probe.
End FFmpegGUI.

(** The frame rate a probe resolves from the two numbers around the slash:
    [ceil(num / den)], and 1 when that is not positive. *)
Definition resolved_rate (num den : Q) : Z :=
  if Qceiling (num / den) <=? 0 then 1 else Qceiling (num / den).

(** [float(s)] on the plain decimal literals the metadata tool prints
    ([30000], [1001], [60.500000]): an optional sign, digits, and an optional
    fraction.  Every other string is refused here; it serves the concrete
    scenarios only, the theorems are stated for any [float]. *)
Module Decimal.

Definition digit_of (c : ascii) : option Z :=
  let n := N_of_ascii c in
  if ((48 <=? n) && (n <=? 57))%N then Some (Z.of_N (n - 48)) else None.

Fixpoint read_digits (s : string) (acc : Z) (n : nat) : Z * nat * string :=
  match s with
  | String c s' =>
      match digit_of c with
      | Some d => read_digits s' (10 * acc + d) (S n)
      | None => (acc, n, s)
      end
  | EmptyString => (acc, n, s)
  end.

Definition float_of_decimal (s : string) : option pyfloat :=
  let '(sign, s1) :=
    match s with
    | String "-" r => (-1, r)
    | String "+" r => (1, r)
    | _ => (1, s)
    end in
  let '(i, ni, s2) := read_digits s1 0 0 in
  match s2 with
  | EmptyString =>
      if (ni =? 0)%nat then None else Some (Finite (inject_Z (sign * i)))
  | String "." s3 =>
      let '(f, nf, s4) := read_digits s3 0 0 in
      match s4 with
      | EmptyString =>
          if (ni + nf =? 0)%nat then None
          else Some (Finite (Qmake (sign * (i * 10 ^ Z.of_nat nf + f))
                                   (Z.to_pos (10 ^ Z.of_nat nf))))
      | _ => None
      end
  | _ => None
  end.

End Decimal.

(** ** Files *)

Module OS.

Definition set_cwd_files (c : gset string) (s : Sys) : Sys :=
  {| fs := {| cwd_files := c; images_dir_files := images_dir_files (fs s) |};
     trace := trace s |}.

Definition set_images_dir_files (d : list (string * string)) (s : Sys) : Sys :=
  {| fs := {| cwd_files := cwd_files (fs s); images_dir_files := d |};
     trace := trace s |}.

(** [os.path.exists(f)] for a name relative to the working directory. *)
Definition path_exists (f : string) : M bool := λ s,
  (Returned (bool_decide (f ∈ cwd_files (fs s))), s).

(** [os.remove(f)] for a name relative to the working directory. *)
Definition remove (f : string) : M unit := λ s,
  if bool_decide (f ∈ cwd_files (fs s))
  then emit (Remove f) (set_cwd_files (cwd_files (fs s) ∖ {[ f ]}) s)
  else (Raised (FileNotFoundError f), s).

(** The entries of the images directory. *)
Definition names (d : list (string * string)) : list string := d.*1.

Fixpoint read (n : string) (d : list (string * string)) : option string :=
  match d with
  | [] => None
  | (n', c) :: d' => if String.eqb n' n then Some c else read n d'
  end.

(** Writing a file: an existing entry keeps its place, a new one is listed
    last. Where a new entry appears in a later listing is platform-defined;
    nothing is stated about it except up to the order of the list. *)
Fixpoint write (n c : string) (d : list (string * string)) : list (string * string) :=
  match d with
  | [] => [(n, c)]
  | (n', c') :: d' =>
      if String.eqb n' n then (n, c) :: d' else (n', c') :: write n c d'
  end.

Definition unlink (n : string) (d : list (string * string)) : list (string * string) :=
  List.filter (λ e, negb (String.eqb e.1 n)) d.

(** [os.listdir(images_dir)] *)
Definition listdir : M (list string) := λ s,
  (Returned (names (images_dir_files (fs s))), s).

(** [shutil.copy(os.path.join(dir, src), os.path.join(dir, dst))] *)
Definition shutil_copy (dir src dst : string) : M unit := λ s,
  let d := images_dir_files (fs s) in
  if bool_decide (src ∈ names d) && String.eqb src dst
  then (Raised (SameFileError (PathLib.join dir src) (PathLib.join dir dst)), s)
  else match read src d with
       | None => (Raised (FileNotFoundError (PathLib.join dir src)), s)
       | Some c =>
           emit (Copy (PathLib.join dir src) (PathLib.join dir dst))
                (set_images_dir_files (write dst c d) s)
       end.

(** [fnmatch] for a pattern whose only wildcard is [?], which matches one
    byte: Python's [?] matches one character, so this is Python's answer for
    [isascii] names. *)
Fixpoint fnmatch (name pat : string) : bool :=
  match pat, name with
  | EmptyString, EmptyString => true
  | String "?" p, String _ n => fnmatch n p
  | String c p, String c' n => Ascii.eqb c c' && fnmatch n p
  | _, _ => false
  end.

(** [glob.glob(os.path.join(images_dir, pat))], as entry names, for an
    [images_dir] that [glob] takes literally ([literal_directory]): with a
    [*], [?] or [[] in the directory part Python matches that part against
    other directories instead. The matches come in the order of the
    listing; Python's order is platform-defined. *)
Definition glob (pat : string) : M (list string) := λ s,
  (Returned (List.filter (λ n, fnmatch n pat) (names (images_dir_files (fs s)))), s).

(** [os.remove(os.path.join(dir, n))] *)
Definition remove_entry (dir n : string) : M unit := λ s,
  let d := images_dir_files (fs s) in
  if bool_decide (n ∈ names d)
  then emit (Remove (PathLib.join dir n)) (set_images_dir_files (unlink n d) s)
  else (Raised (FileNotFoundError (PathLib.join dir n)), s).

End OS.

(** ** [Compress10MBPage] *)

Module Compress10MBPage.

Definition target_size_bytes : Z := 9 * 1024 * 1024.
Definition audio_bitrate : Z := 128 * 1024.

(** [int((target_size_bytes * 8 - audio_bitrate * duration) / duration)].
    The quotient is taken exactly; the binary64 quotient has the same
    integer part for every duration below 2^32 in absolute value. Beyond
    about 10^19 seconds Python's rounded quotient is -131072 where the exact
    one truncates to -131071. *)
Definition video_bitrate (duration : Z) : outcome Z :=
  match PyNum.int_truediv (target_size_bytes * 8 - audio_bitrate * duration) duration with
  | Returned q => Returned (PyNum.Qtrunc q)
  | Raised e => Raised e
  end.

Definition null_file (W : World) : string :=
  if os_name_is_nt W then "NUL" else "/dev/nul".

Definition first_pass_cmd (W : World) (self : MainWindow) (video_bitrate : Z) : list string :=
  [ "ffmpeg"; "-y"; "-i"; input_video self;
    "-c:v"; "libx264"; "-b:v"; PyStr.str_int video_bitrate;
    "-pass"; "1"; "-an"; "-f"; "null"; null_file W ].

Definition second_pass_cmd (self : MainWindow) (video_bitrate : Z) : list string :=
  [ "ffmpeg"; "-i"; input_video self;
    "-c:v"; "libx264"; "-b:v"; PyStr.str_int video_bitrate;
    "-pass"; "2"; "-c:a"; "aac"; "-b:a"; "128k";
    output_video self ].

(** The temporary log files of the two-pass encode. *)
Definition log_files : list string := [ "ffmpeg2pass-0.log"; "ffmpeg2pass-0.log.mbtree" ].

Definition remove_log_files : M unit :=
  for_each log_files (λ f,
    present ← OS.path_exists f;
    if present : bool then OS.remove f else mret tt).

Section Page.
Context (W : World).

Definition create_video (self : MainWindow) : M unit :=
  let input_ext := ext_of (input_video self) in
  let output_ext := ext_of (output_video self) in
  if negb (PyStr.mem input_ext VIDEO_EXTENSIONS)
     || negb (PyStr.mem output_ext VIDEO_EXTENSIONS)
  then show invalid_video
  else
    let duration := video_duration self in
    video_bitrate ← lift (video_bitrate duration);
    first_done ←
      try_except
        (subprocess_run W true (first_pass_cmd W self video_bitrate) ;; mret true)
        (on_CalledProcessError (λ e,
           show (operation_failed (ExnText "First pass failed: " e)) ;; mret false));
    if first_done : bool then
      try_finally
        (try_except
           (subprocess_run W true (second_pass_cmd self video_bitrate) ;;
            show (operation_success "Compression completed successfully."))
           (on_CalledProcessError (λ e,
              show (operation_failed (ExnText "Second pass failed: " e)))))
        remove_log_files
    else mret tt.

End Page.
End Compress10MBPage.

(** ** [TrimPage] *)

Module TrimPage.

(** The values of the six spin boxes. *)
Record SpinBoxes : Type := {
  start_m : Z; start_s : Z; start_f : Z;
  end_m : Z; end_s : Z; end_f : Z;
}.

(** [m * 60 + s + f / frame_rate], exactly. Python adds and compares the
    binary64 values; for values within the ranges of the spin boxes, a
    duration below 2^31 and a frame rate below 2^16 two offsets compare as
    the exact ones do (they differ by at least [1 / frame_rate], far more
    than the rounding of a sum below 2^33). At frame rates near 2^31 two
    rows one frame apart give the same float. *)
Definition offset (m s f frame_rate : Z) : outcome Q :=
  match PyNum.int_truediv f frame_rate with
  | Returned x => Returned (inject_Z (m * 60 + s) + x)%Q
  | Raised e => Raised e
  end.

Definition get_start_and_end_trim (self : MainWindow) (b : SpinBoxes) : outcome (Q * Q) :=
  match offset (start_m b) (start_s b) (start_f b) (frame_rate self) with
  | Returned start =>
      match offset (end_m b) (end_s b) (end_f b) (frame_rate self) with
      | Returned end_ => Returned (start, end_)
      | Raised e => Raised e
      end
  | Raised e => Raised e
  end.

Section Page.
Context (W : World).
(** [str(x)] for a float. *)
Context (str_float : Q → string).

Definition create_video (self : MainWindow) (b : SpinBoxes) : M unit :=
  let input_ext := ext_of (input_video self) in
  let output_ext := ext_of (output_video self) in
  if negb (PyStr.mem input_ext VIDEO_EXTENSIONS)
     || negb (PyStr.mem output_ext VIDEO_EXTENSIONS)
  then show invalid_video
  else
    '(start, end_) ← lift (get_start_and_end_trim self b);
    if Qle_bool end_ start
    then show (operation_failed (Text "Start time must be less than end time."))
    else
      let cmd := [ "ffmpeg"; "-i"; input_video self ] in
      let cmd := if negb (Qeq_bool start 0) then cmd ++ [ "-ss"; str_float start ] else cmd in
      let cmd := if negb (Qeq_bool end_ 0) then cmd ++ [ "-to"; str_float end_ ] else cmd in
      let cmd := cmd ++ [ "-c:v"; "libx264" ] in
      audio ← FFmpegGUI.has_audio W (input_video self);
      let cmd := if audio : bool then cmd ++ [ "-c:a"; "aac" ] else cmd in
      let cmd := cmd ++ [ output_video self ] in
      try_except
        (subprocess_run W true cmd ;;
         show (operation_success "Trim completed successfully."))
        (on_CalledProcessError (λ e, show (operation_failed (ExnStderr e)))).

End Page.
End TrimPage.

(** ** [ImageToVideoPage] *)

Module ImageToVideoPage.

(** [f'img-{num:02d}.jpg'] *)
Definition staged_name (num : Z) : string := "img-" +:+ PyStr.format_02d num +:+ ".jpg".

(** The loop of [fix_naming], with its counter [num]. *)
Fixpoint fix_naming_loop (dir : string) (images : list string) (num : Z) : M unit :=
  match images with
  | [] => mret tt
  | image :: rest =>
      if PyStr.mem (ext_of image) IMAGE_EXTENSIONS
      then OS.shutil_copy dir image (staged_name num) ;;
           fix_naming_loop dir rest (num + 1)
      else fix_naming_loop dir rest num
  end.

Definition fix_naming (self : MainWindow) : M unit :=
  images ← OS.listdir;
  fix_naming_loop (images_dir self) images 1.

Definition cmd (self : MainWindow) : list string :=
  [ "ffmpeg"; "-framerate"; "1"; "-start_number"; "1";
    "-i"; PathLib.join (images_dir self) "img-%02d.jpg";
    "-vf";
    "scale=1920:1080:force_original_aspect_ratio=decrease:eval=frame"
    +:+ ",pad=1920:1080:-1:-1:eval=frame";
    "-c:v"; "libx264"; "-pix_fmt"; "yuv420p"; "-r"; "24"; output_video self ].

(** The entries [fix_naming] copies, and the copies it makes of them
    counting from [num]: the names and contents, and the events. *)
Definition is_image (name : string) : bool := PyStr.mem (ext_of name) IMAGE_EXTENSIONS.

Definition images_of (d : list (string * string)) : list (string * string) :=
  List.filter (λ e, is_image e.1) d.



(** The deletion of the used images, after the encoder has succeeded. *)
Definition delete_used_images (self : MainWindow) : M unit :=
  files_to_delete ← OS.glob "img-??.jpg";
  for_each files_to_delete (λ n,
    try_except (OS.remove_entry (images_dir self) n) (on_Exception (λ _, mret tt))).

Section Page.
Context (W : World).

Definition create_video (self : MainWindow) : M unit :=
  let output_ext := ext_of (output_video self) in
  if negb (PyStr.mem output_ext VIDEO_EXTENSIONS)
  then show invalid_video
  else
    fix_naming self ;;
    try_except
      (subprocess_run W true (cmd self) ;;
       show (operation_success "Image to video conversion completed successfully.") ;;
       delete_used_images self)
      (on_CalledProcessError (λ e, show (operation_failed (ExnText "" e)))).

End Page.
End ImageToVideoPage.

(** ** [ExtractSoundPage] *)

Module ExtractSoundPage.

(** [AUDIO_CODEC_MAP[output_ext]] *)
Definition codec_for (output_ext : string) : M string :=
  match AUDIO_CODEC_MAP !! output_ext with
  | Some codec => mret codec
  | None => raise (KeyError output_ext)
  end.

Section Page.
Context (W : World).

Definition extract_audio (self : MainWindow) : M unit :=
  let input_ext := ext_of (input_video self) in
  let output_ext := ext_of (output_audio self) in
  (* a or b or c, evaluated from the left *)
  rejected ←
    (if negb (PyStr.mem input_ext VIDEO_EXTENSIONS) then mret true
     else
       audio ← FFmpegGUI.has_audio W (input_video self);
       if negb audio then mret true
       else mret (negb (PyStr.mem output_ext AUDIO_EXTENSIONS)));
  if rejected : bool then
    if negb (PyStr.mem input_ext VIDEO_EXTENSIONS) then show invalid_video
    else if negb (PyStr.mem output_ext AUDIO_EXTENSIONS) then show invalid_audio
    else show no_audio_stream
  else
    codec ← codec_for output_ext;
    let cmd := [ "ffmpeg"; "-i"; input_video self; "-map"; "0:a"; "-q:a"; "0";
                 "-acodec"; codec; output_audio self ] in
    try_except
      (subprocess_run W true cmd ;;
       show (operation_success "Audio extraction completed successfully."))
      (on_CalledProcessError (λ e, show (operation_failed (ExnText "" e)))).

End Page.
End ExtractSoundPage.

(** ** Concrete scenarios *)

Module Scenario.

(** The line feed that ends the output of the metadata tool. *)
Definition newline : string := String (ascii_of_N 10) EmptyString.

(** What the metadata tool prints for an NTSC file of sixty and a half
    seconds. *)
Definition ntsc_rate : string := "30000/1001" +:+ newline.
Definition ntsc_seconds : string := "60.500000" +:+ newline.

Definition exited (code : Z) (out : string) : CompletedProcess :=
  {| returncode := code; stdout := out; stderr := "" |}.

(** Tools that answer the probe with [rate] and [seconds], report an audio
    stream, leave the files as they are, and where the encoder exits with
    [encoder_status]. *)
Definition tools (rate seconds : string) (encoder_status : Z) : World :=
  {| os_name_is_nt := false;
     spawn := λ cmd f,
       match cmd with
       | "ffprobe" :: "-v" :: "error" :: "-select_streams" :: _ => (Some (exited 0 rate), f)
       | "ffprobe" :: "-v" :: _ => (Some (exited 0 seconds), f)
       | "ffprobe" :: _ => (Some (exited 0 "[STREAM]"), f)
       | _ => (Some (exited encoder_status ""), f)
       end |}.

(** The same tools, where the first pass of a two-pass encode leaves its
    two statistics files in the working directory. *)
Definition two_pass_tools (second_pass_status : Z) : World :=
  {| os_name_is_nt := false;
     spawn := λ cmd f,
       match cmd with
       | "ffmpeg" :: "-y" :: _ =>
           (Some (exited 0 ""),
            {| cwd_files := {[ "ffmpeg2pass-0.log"; "ffmpeg2pass-0.log.mbtree" ]} ∪ cwd_files f;
               images_dir_files := images_dir_files f |})
       | "ffmpeg" :: _ => (Some (exited second_pass_status ""), f)
       | _ => (Some (exited 0 "[STREAM]"), f)
       end |}.

Definition window (input output audio : string) (rate seconds : Z) : MainWindow :=
  {| images_dir := "/pics"; input_video := input; input_video_2 := "";
     output_video := output; output_audio := audio;
     frame_rate := rate; video_duration := seconds |}.

Definition empty_fs : FileSystem := {| cwd_files := ∅; images_dir_files := [] |}.

Definition pictures (d : list (string * string)) : FileSystem :=
  {| cwd_files := ∅; images_dir_files := d |}.

(** Tools whose first pass writes its statistics and then exits with
    status 1. *)
Definition failing_first_pass : World :=
  {| os_name_is_nt := false;
     spawn := λ cmd f,
       (Some (exited 1 ""),
        {| cwd_files := {[ "ffmpeg2pass-0.log"; "ffmpeg2pass-0.log.mbtree" ]} ∪ cwd_files f;
           images_dir_files := images_dir_files f |}) |}.

(** A directory with five images and two other files. *)
Definition album : list (string * string) :=
  [ ("a.jpg", "A"); ("notes.txt", "N"); ("b.JPG", "B"); ("c.png", "C");
    ("d.jpeg", "D"); ("movie.mp4", "M"); ("e.gif", "E") ].

End Scenario.

(** ** Expressions that only return or raise *)

Global Instance outcome_ret : MRet outcome := λ A a, Returned a.

Global Instance outcome_bind : MBind outcome := λ A B f o,
  match o with
  | Returned a => f a
  | Raised e => Raised e
  end.

(** [try: body except ValueError: pass], where passing leaves [unchanged]. *)
Definition except_ValueError_pass {A} (body : outcome A) (unchanged : A) : outcome A :=
  match body with
  | Raised ValueError => Returned unchanged
  | r => r
  end.

Module PyFloat.

(** [x * n] for a float [x] and a positive int [n], exactly. Python rounds
    the product to binary64, which can reach the next integer ([0.7 * 100]
    is [70.0]) and overflows to an infinity for huge [x]; the product of 0
    is exact. *)
Definition mul_positive_int (x : pyfloat) (n : Z) : pyfloat :=
  match x with
  | Finite q => Finite (q * inject_Z n)
  | Inf s => Inf s
  | NaN => NaN
  end.

(** [float(s)] as an expression. *)
Definition of_string (float : string → option pyfloat) (s : string) : outcome pyfloat :=
  match float s with
  | Some x => Returned x
  | None => Raised ValueError
  end.

(** [str(x)], given [str] on the finite floats. *)
Definition to_string (str_float : Q → string) (x : pyfloat) : string :=
  match x with
  | Finite q => str_float q
  | Inf false => "inf"
  | Inf true => "-inf"
  | NaN => "nan"
  end.

End PyFloat.

(** ** [SpeedPage] *)

Module SpeedPage.

(** [self.speed], the value of the slider and the text of the input box. *)
Record Page : Type := {
  speed : pyfloat;
  speed_slider : Z;
  speed_field : string;
}.

(** [min, base, max = 1, 100, 1000] *)
Definition min : Z := 1.
Definition base : Z := 100.
Definition max : Z := 1000.

(** The page as [add_speed_slider_field] leaves it. *)
Definition init : Page :=
  {| speed := Finite 1; speed_slider := 100; speed_field := "1.0" |}.

Section Widgets.
Context (float : string → option pyfloat).
(** [f"{speed:.2f}"] *)
Context (format_2f : Q → string).

(** The slot of the slider's [valueChanged]; the slider already shows
    [value]. *)
Definition slider_changed (p : Page) (value : Z) : outcome Page :=
  speed ← PyNum.int_truediv value base;
  mret {| speed := Finite speed; speed_slider := speed_slider p;
          speed_field := format_2f speed |}.

(** [QSlider.setValue] for a value inside the range: a value that differs
    from the one shown is taken and signalled with [valueChanged]. *)
Definition slider_setValue (p : Page) (value : Z) : outcome Page :=
  if value =? speed_slider p then mret p
  else slider_changed {| speed := speed p; speed_slider := value;
                         speed_field := speed_field p |} value.

(** The slot of the input box's [editingFinished]. *)
Definition box_changed (p : Page) : outcome Page :=
  except_ValueError_pass
    (speed ← PyFloat.of_string float (speed_field p);
     value ← PyNum.int_of_float (PyFloat.mul_positive_int speed base);
     let p := {| speed := speed; speed_slider := speed_slider p;
                 speed_field := speed_field p |} in
     if min >? value then mret p
     else if (min <=? value) && (value <=? max) then slider_setValue p value
     else mret p)
    p.

End Widgets.

Section Page.
Context (W : World).
(** [str(x)] for a float. *)
Context (str_float : Q → string).

Definition cmd (self : MainWindow) (speed : pyfloat) : list string :=
  [ "ffmpeg"; "-y"; "-i"; input_video self;
    "-filter_complex"; "[0:v]setpts=" +:+ PyFloat.to_string str_float speed +:+ "*PTS[v]";
    "-map"; "[v]"; "-c:v"; "libx264"; output_video self ].

Definition create_video (self : MainWindow) (p : Page) : M unit :=
  let input_ext := ext_of (input_video self) in
  let output_ext := ext_of (output_video self) in
  if negb (PyStr.mem input_ext VIDEO_EXTENSIONS)
     || negb (PyStr.mem output_ext VIDEO_EXTENSIONS)
  then show invalid_video
  else
    speed ← lift (PyNum.float_div (Finite 1) (speed p));
    try_except
      (subprocess_run W true (cmd self speed) ;;
       show (operation_success "Speed change completed successfully."))
      (on_CalledProcessError (λ e, show (operation_failed (ExnText "" e)))).

End Page.
End SpeedPage.

(** ** [CatPage] *)

Module CatPage.

Definition cmd (self : MainWindow) : list string :=
  [ "ffmpeg"; "-i"; input_video self; "-i"; input_video_2 self;
    "-filter_complex"; "[0:v:0][0:a:0][1:v:0][1:a:0]concat=n=2:v=1:a=1[outv][outa]";
    "-map"; "[outv]"; "-map"; "[outa]"; output_video self ].

Section Page.
Context (W : World).

Definition create_video (self : MainWindow) : M unit :=
  let input_ext := ext_of (input_video self) in
  let input_2_ext := ext_of (input_video_2 self) in
  let output_ext := ext_of (output_video self) in
  if negb (PyStr.mem input_ext VIDEO_EXTENSIONS)
     || negb (PyStr.mem input_2_ext VIDEO_EXTENSIONS)
     || negb (PyStr.mem output_ext VIDEO_EXTENSIONS)
  then show invalid_video
  else
    try_except
      (subprocess_run W true (cmd self) ;;
       show (operation_success "Concatenation completed successfully."))
      (on_CalledProcessError (λ e, show (operation_failed (ExnText "" e)))).

End Page.
End CatPage.

(** ** The ranges of the trim spin boxes and the selection of an input *)

Module TrimRanges.

(** The [(minimum, maximum)] pairs [update_trim_spinbox_ranges] passes to
    [setRange]: minutes, seconds and frames of both rows, and the two
    decimal inputs. *)
Record Ranges : Type := {
  minutes : Z * Z;
  seconds : Z * Z;
  frames : Z * Z;
  input : Z * Z;
}.

Definition update_trim_spinbox_ranges (main_window : MainWindow) : Ranges :=
  let duration := video_duration main_window in
  let frame_rate := frame_rate main_window in
  let max_minutes := duration `div` 60 in
  {| minutes := (0, max_minutes);
     seconds := (0, 59);
     frames := (0, frame_rate - 1);
     input := (0, duration) |}.

(** A spin box value lies in its range. *)
Definition within (r : Z * Z) (v : Z) : Prop := r.1 ≤ v ≤ r.2.

(** All six values of the two rows lie in their ranges. *)
Definition in_ranges (r : Ranges) (b : TrimPage.SpinBoxes) : Prop :=
  within (minutes r) (TrimPage.start_m b) ∧ within (seconds r) (TrimPage.start_s b)
  ∧ within (frames r) (TrimPage.start_f b)
  ∧ within (minutes r) (TrimPage.end_m b) ∧ within (seconds r) (TrimPage.end_s b)
  ∧ within (frames r) (TrimPage.end_f b).

End TrimRanges.

Module Selection.
Section Dialog.
Context (W : World).
Context (float : string → option pyfloat).

Definition set_input_video (self : MainWindow) (path : string) : MainWindow :=
  {| images_dir := images_dir self; input_video := path;
     input_video_2 := input_video_2 self; output_video := output_video self;
     output_audio := output_audio self;
     frame_rate := frame_rate self; video_duration := video_duration self |}.

Definition set_input_video_2 (self : MainWindow) (path : string) : MainWindow :=
  {| images_dir := images_dir self; input_video := input_video self;
     input_video_2 := path; output_video := output_video self;
     output_audio := output_audio self;
     frame_rate := frame_rate self; video_duration := video_duration self |}.

(** [get_input_video], where [file_path] is what the file dialog returned
    (the empty string when it was cancelled). The result is the window, and
    the path with the new ranges of the trim page when a file was chosen. *)
Definition get_input_video (self : MainWindow) (file_path : string) (is_second_file : bool)
  : M (MainWindow * option (string * TrimRanges.Ranges)) :=
  if negb (String.eqb file_path "") then
    let self := if negb is_second_file then set_input_video self file_path
                else set_input_video_2 self file_path in
    self ← FFmpegGUI.update_video_frame_rate W float self (input_video self);
    mret (self, Some (file_path, TrimRanges.update_trim_spinbox_ranges self))
  else mret (self, None).

End Dialog.
End Selection.

(** ** Directory entries *)


(** [s.isascii()] *)
Fixpoint isascii (s : string) : bool :=
  match s with
  | EmptyString => true
  | String c s' => (N_of_ascii c <? 128)%N && isascii s'
  end.



(** ** What leaves a page *)

(** The computation ended with [subprocess.CalledProcessError] raised out
    of it. *)
Definition escapes_CalledProcessError {A} (r : outcome A * Sys) : bool :=
  match r.1 with
  | Raised (CalledProcessError _ _) => true
  | _ => false
  end.

(** More scenarios. *)
Module Session.

(** Tools whose metadata queries print nothing that parses. *)
Definition silent_probe : World := Scenario.tools "N/A" "N/A" 0.

(** [float] and [str] on the handful of values the scenarios use. *)
Definition str_float (q : Q) : string :=
  if Qeq_bool q 1 then "1.0" else if Qeq_bool q (1 # 2) then "0.5"
  else if Qeq_bool q 2 then "2.0" else "?".

Definition format_2f (q : Q) : string :=
  if Qeq_bool q (123 # 100) then "1.23" else if Qeq_bool q 2 then "2.00" else "?".

End Session.

(** * Properties *)

(** ** Extension tables *)

(** The extensions that are both video and audio extensions are exactly
    these four. *)
Lemma video_audio_overlap :
  List.filter (λ e, PyStr.mem e AUDIO_EXTENSIONS) VIDEO_EXTENSIONS
  = [ ".m4p"; ".mp2"; ".ogg"; ".rm" ].
Proof. vm_compute. reflexivity. Qed.

(** Every key of the codec table is an audio extension; the audio extensions
    without a codec are the twenty-two listed. *)
Lemma codec_keys_are_audio :
  Forall (λ e, PyStr.mem e AUDIO_EXTENSIONS = true) (map_to_list AUDIO_CODEC_MAP).*1.
Proof. vm_compute. repeat constructor. Qed.

Lemma audio_without_codec :
  List.filter (λ e, bool_decide (AUDIO_CODEC_MAP !! e = None)) AUDIO_EXTENSIONS
  = [ ".m4b"; ".m4p"; ".oga"; ".aif"; ".ape"; ".awb"; ".ra"; ".rm"; ".mp1";
      ".voc"; ".mka"; ".spx"; ".8svx"; ".gsm"; ".ivs"; ".sln"; ".vox";
      ".rf64"; ".msv"; ".dvf"; ".act"; ".dss" ].
Proof. vm_compute. reflexivity. Qed.

(** C10: the video and the audio extension lists share [.ogg], [.mp2],
    [.m4p] and [.rm]; a path with such a suffix, in any letter case, is
    accepted by the video test and by the audio test alike, so the tests do
    not sort it into one category; and one and the same path passes the
    video-input check and the audio-output check of [extract_audio], which
    goes on to call the encoder. *)
Theorem C10_video_and_audio_extensions_overlap :
  Forall (λ e, PyStr.mem e VIDEO_EXTENSIONS = true ∧ PyStr.mem e AUDIO_EXTENSIONS = true)
         [ ".ogg"; ".mp2"; ".m4p"; ".rm" ]
  ∧ Forall (λ p, PyStr.mem (ext_of p) VIDEO_EXTENSIONS = true
                 ∧ PyStr.mem (ext_of p) AUDIO_EXTENSIONS = true
                 ∧ PyStr.mem (ext_of p) IMAGE_EXTENSIONS = false)
           [ "/m/clip.ogg"; "/m/Clip.OGG"; "track.Mp2"; "a.b/old.M4P"; "show.rm" ]
  ∧ ExtractSoundPage.extract_audio (Scenario.tools "" "" 0)
      (Scenario.window "/m/clip.ogg" "" "/m/clip.ogg" 0 0) (initial Scenario.empty_fs)
    = (Returned tt,
       {| fs := Scenario.empty_fs;
          trace :=
            [ Run [ "ffprobe"; "-i"; "/m/clip.ogg"; "-show_streams"; "-select_streams"; "a";
                    "-loglevel"; "error" ];
              Run [ "ffmpeg"; "-i"; "/m/clip.ogg"; "-map"; "0:a"; "-q:a"; "0";
                    "-acodec"; "libvorbis"; "/m/clip.ogg" ];
              Show (operation_success "Audio extraction completed successfully.") ] |}).
Proof.
  split; [| split].
  - repeat constructor.
  - repeat constructor.
  - vm_compute. reflexivity.
Qed.

(** ** Running statements *)

Ltac unfold_M :=
  unfold mbind, M_bind, mret, M_ret, lift, raise, show, emit, try_except, try_finally,
    on_CalledProcessError, on_Exception in *.

Lemma bind_returned {A B} (m : M A) (k : A → M B) s a s' :
  m s = (Returned a, s') → (m ≫= k) s = k a s'.
Proof. intros H. unfold mbind, M_bind. by rewrite H. Qed.

Lemma bind_raised {A B} (m : M A) (k : A → M B) s e s' :
  m s = (Raised e, s') → (m ≫= k) s = (Raised e, s').
Proof. intros H. unfold mbind, M_bind. by rewrite H. Qed.

Lemma try_except_returned {A} (body : M A) h s a s' :
  body s = (Returned a, s') → try_except body h s = (Returned a, s').
Proof. intros H. unfold try_except. by rewrite H. Qed.

Lemma try_except_raised {A} (body : M A) h s e s' :
  body s = (Raised e, s') →
  try_except body h s = match h e with Some k => k s' | None => (Raised e, s') end.
Proof. intros H. unfold try_except. by rewrite H. Qed.

Lemma subprocess_run_exit_0 W check cmd s p f :
  spawn W cmd (fs s) = (Some p, f) → returncode p = 0 →
  subprocess_run W check cmd s = (Returned p, {| fs := f; trace := trace s ++ [ Run cmd ] |}).
Proof.
  intros H Hrc. unfold subprocess_run. rewrite H, Hrc. by rewrite andb_false_r.
Qed.

Lemma subprocess_run_exit_other W cmd s p f :
  spawn W cmd (fs s) = (Some p, f) → returncode p ≠ 0 →
  subprocess_run W true cmd s
  = (Raised (CalledProcessError cmd (returncode p)),
     {| fs := f; trace := trace s ++ [ Run cmd ] |}).
Proof.
  intros H Hrc. unfold subprocess_run. rewrite H.
  by destruct (Z.eqb_spec (returncode p) 0).
Qed.

Lemma subprocess_run_not_started W check cmd s f :
  spawn W cmd (fs s) = (None, f) →
  subprocess_run W check cmd s = (Raised OSError, {| fs := f; trace := trace s ++ [ Run cmd ] |}).
Proof. intros H. unfold subprocess_run. by rewrite H. Qed.

Lemma show_returns m s :
  show m s = (Returned tt, {| fs := fs s; trace := trace s ++ [ Show m ] |}).
Proof. reflexivity. Qed.

(** ** Size-constrained compression *)

Lemma Qtrunc_truediv a d :
  d ≠ 0 → PyNum.Qtrunc (inject_Z a / inject_Z d) = Z.quot a d.
Proof.
  intros Hd. unfold PyNum.Qtrunc, Qdiv, Qinv, Qmult, inject_Z. simpl.
  destruct d as [|p|p]; [done | |]; simpl.
  - by rewrite Z.mul_1_r.
  - rewrite Pos.mul_1_l. replace (a * -1) with (- a) by lia.
    change (Z.neg p) with (- Z.pos p).
    by rewrite Z.quot_opp_l, Z.quot_opp_r.
Qed.

(** The bitrate in integers: the quotient truncated towards zero. *)
Lemma video_bitrate_quot d :
  d ≠ 0 → Compress10MBPage.video_bitrate d = Returned (Z.quot (75497472 - 131072 * d) d).
Proof.
  intros Hd. unfold Compress10MBPage.video_bitrate, PyNum.int_truediv.
  destruct (Z.eqb_spec d 0) as [|_]; [done|].
  by rewrite Qtrunc_truediv.
Qed.

Lemma video_bitrate_zero : Compress10MBPage.video_bitrate 0 = Raised ZeroDivisionError.
Proof. reflexivity. Qed.

(** With both paths accepted and no duration, [create_video] raises and
    nothing else happens: no message, no invocation. *)
Lemma compress_without_duration W self s :
  PyStr.mem (ext_of (input_video self)) VIDEO_EXTENSIONS = true →
  PyStr.mem (ext_of (output_video self)) VIDEO_EXTENSIONS = true →
  video_duration self = 0 →
  Compress10MBPage.create_video W self s = (Raised ZeroDivisionError, s).
Proof.
  intros Hin Hout Hd. unfold Compress10MBPage.create_video.
  rewrite Hin, Hout, Hd. reflexivity.
Qed.

(** C1: at duration 0 (the value [_init_variables] sets and a failed probe
    leaves) and two accepted paths, the compression raises
    [ZeroDivisionError] out of [create_video]: no message box is shown, so
    the user gets no validation error; no encoder is started either. *)
Theorem C1_zero_duration_raises_unhandled :
  ∀ W s,
    Compress10MBPage.create_video W (Scenario.window "/v/in.mp4" "/v/out.mp4" "" 0 0) s
    = (Raised ZeroDivisionError, s).
Proof. intros W s. by apply compress_without_duration. Qed.

(** ** Audio extraction *)

Lemma has_audio_completed W path s p f :
  spawn W (FFmpegGUI.stream_query path) (fs s) = (Some p, f) →
  FFmpegGUI.has_audio W path s
  = (Returned (negb (String.eqb (stdout p) "")),
     {| fs := f; trace := trace s ++ [Run (FFmpegGUI.stream_query path)] |}).
Proof.
  intros H. unfold FFmpegGUI.has_audio, subprocess_run. unfold_M.
  by rewrite H.
Qed.

Lemma has_audio_not_started W path s f :
  spawn W (FFmpegGUI.stream_query path) (fs s) = (None, f) →
  FFmpegGUI.has_audio W path s
  = (Raised OSError, {| fs := f; trace := trace s ++ [Run (FFmpegGUI.stream_query path)] |}).
Proof.
  intros H. unfold FFmpegGUI.has_audio, subprocess_run. unfold_M.
  by rewrite H.
Qed.

(** An accepted video with an audio stream and an output extension that is
    an audio extension without a codec: the lookup raises [KeyError] after
    the stream query, before any encoder is started and without a message. *)
Lemma extract_audio_without_codec W self s p f :
  PyStr.mem (ext_of (input_video self)) VIDEO_EXTENSIONS = true →
  PyStr.mem (ext_of (output_audio self)) AUDIO_EXTENSIONS = true →
  AUDIO_CODEC_MAP !! ext_of (output_audio self) = None →
  spawn W (FFmpegGUI.stream_query (input_video self)) (fs s) = (Some p, f) →
  stdout p ≠ "" →
  ExtractSoundPage.extract_audio W self s
  = (Raised (KeyError (ext_of (output_audio self))),
     {| fs := f; trace := trace s ++ [ Run (FFmpegGUI.stream_query (input_video self)) ] |}).
Proof.
  intros Hin Hout Hcodec Hspawn Hout_nonempty.
  unfold ExtractSoundPage.extract_audio. rewrite Hin, Hout. simpl.
  unfold mbind at 1, M_bind. unfold mbind at 1, M_bind.
  rewrite (has_audio_completed _ _ _ _ _ Hspawn).
  destruct (String.eqb_spec (stdout p) "") as [|_]; [done|]. simpl.
  unfold mret, M_ret, ExtractSoundPage.codec_for. rewrite Hcodec.
  unfold mbind, M_bind. reflexivity.
Qed.

(** C2: extracting to [.oga], an audio extension that has no entry in
    [AUDIO_CODEC_MAP], from a video with an audio stream: the table lookup
    raises [KeyError] out of [extract_audio]. No encoder is started, but no
    message box reports the unsupported extension either. *)
Theorem C2_extension_without_codec_raises_KeyError :
  ExtractSoundPage.extract_audio (Scenario.tools "" "" 0)
    (Scenario.window "/v/in.mp4" "" "/v/out.oga" 0 0) (initial Scenario.empty_fs)
  = (Raised (KeyError ".oga"),
     {| fs := Scenario.empty_fs;
        trace := [ Run [ "ffprobe"; "-i"; "/v/in.mp4"; "-show_streams"; "-select_streams"; "a";
                         "-loglevel"; "error" ] ] |}).
Proof. vm_compute. reflexivity. Qed.

(** ** Two-pass runs *)

(** The cleanup of the two-pass log files removes those that exist, in
    order, and never raises. *)
Lemma remove_log_files_spec s :
  Compress10MBPage.remove_log_files s
  = (Returned tt,
     {| fs := {| cwd_files := cwd_files (fs s) ∖ list_to_set Compress10MBPage.log_files;
                 images_dir_files := images_dir_files (fs s) |};
        trace := trace s ++ (Remove <$> List.filter (λ f, bool_decide (f ∈ cwd_files (fs s)))
                                           Compress10MBPage.log_files) |}).
Proof.
  destruct s as [[cwd imgs] t].
  unfold Compress10MBPage.remove_log_files, Compress10MBPage.log_files, for_each.
  unfold OS.path_exists, OS.remove, OS.set_cwd_files. unfold_M. simpl.
  destruct (decide ("ffmpeg2pass-0.log" ∈ cwd)) as [Ha|Ha],
           (decide ("ffmpeg2pass-0.log.mbtree" ∈ cwd)) as [Hb|Hb].
  all: repeat (case_bool_decide; simpl);
    repeat match goal with
           | H : _ ∈ _ ∖ _ |- _ => apply elem_of_difference in H as [? _]
           | H : _ ∉ _ ∖ {[ _ ]} |- _ =>
               rewrite elem_of_difference, elem_of_singleton in H;
               exfalso; apply H; split; [assumption | discriminate]
           end; try contradiction.
  all: rewrite ?app_nil_r, <- ?app_assoc; simpl.
  all: do 3 f_equal; apply set_eq; intros x;
    rewrite !elem_of_difference, ?elem_of_union, !elem_of_singleton, ?elem_of_empty;
    intuition congruence.
Qed.

(** What [create_video] does once the first pass has exited with status 0:
    the second pass is started, its outcome is shown, and the log files are
    removed whatever that outcome was. *)
Lemma compress_after_first_pass W self s b p1 f1 :
  PyStr.mem (ext_of (input_video self)) VIDEO_EXTENSIONS = true →
  PyStr.mem (ext_of (output_video self)) VIDEO_EXTENSIONS = true →
  Compress10MBPage.video_bitrate (video_duration self) = Returned b →
  spawn W (Compress10MBPage.first_pass_cmd W self b) (fs s) = (Some p1, f1) →
  returncode p1 = 0 →
  let second := Compress10MBPage.second_pass_cmd self b in
  let r2 := (spawn W second f1).1 in
  let f2 := (spawn W second f1).2 in
  Compress10MBPage.create_video W self s
  = (match r2 with Some _ => Returned tt | None => Raised OSError end,
     {| fs := {| cwd_files := cwd_files f2 ∖ list_to_set Compress10MBPage.log_files;
                 images_dir_files := images_dir_files f2 |};
        trace :=
          trace s
          ++ [ Run (Compress10MBPage.first_pass_cmd W self b); Run second ]
          ++ match r2 with
             | Some p2 =>
                 [ Show (if returncode p2 =? 0
                         then operation_success "Compression completed successfully."
                         else operation_failed
                                (ExnText "Second pass failed: "
                                   (CalledProcessError second (returncode p2)))) ]
             | None => []
             end
          ++ (Remove <$> List.filter (λ f, bool_decide (f ∈ cwd_files f2))
                           Compress10MBPage.log_files) |}).
Proof.
  intros Hin Hout Hb H1 Hrc second r2 f2. subst second r2 f2.
  unfold Compress10MBPage.create_video. rewrite Hin, Hout, Hb. simpl.
  unfold subprocess_run. unfold_M. rewrite H1, Hrc. simpl.
  destruct (spawn W (Compress10MBPage.second_pass_cmd self b) f1) as [[p2|] f2]; simpl.
  - destruct (Z.eqb_spec (returncode p2) 0) as [Hz|Hz]; simpl;
      rewrite remove_log_files_spec; simpl; rewrite <- !app_assoc; reflexivity.
  - rewrite remove_log_files_spec. simpl. rewrite <- !app_assoc. reflexivity.
Qed.

(** When the first pass exits with another status, the failure is shown and
    [create_video] returns. *)
Lemma compress_first_pass_failed W self s b p1 f1 :
  PyStr.mem (ext_of (input_video self)) VIDEO_EXTENSIONS = true →
  PyStr.mem (ext_of (output_video self)) VIDEO_EXTENSIONS = true →
  Compress10MBPage.video_bitrate (video_duration self) = Returned b →
  spawn W (Compress10MBPage.first_pass_cmd W self b) (fs s) = (Some p1, f1) →
  returncode p1 ≠ 0 →
  Compress10MBPage.create_video W self s
  = (Returned tt,
     {| fs := f1;
        trace := trace s
                 ++ [ Run (Compress10MBPage.first_pass_cmd W self b);
                      Show (operation_failed
                              (ExnText "First pass failed: "
                                 (CalledProcessError (Compress10MBPage.first_pass_cmd W self b)
                                    (returncode p1)))) ] |}).
Proof.
  intros Hin Hout Hb H1 Hrc.
  unfold Compress10MBPage.create_video. rewrite Hin, Hout, Hb. simpl.
  unfold subprocess_run. unfold_M. rewrite H1.
  destruct (Z.eqb_spec (returncode p1) 0) as [|_]; [done|]. simpl.
  rewrite <- !app_assoc. reflexivity.
Qed.

Lemma compress_first_pass_not_started W self s b f1 :
  PyStr.mem (ext_of (input_video self)) VIDEO_EXTENSIONS = true →
  PyStr.mem (ext_of (output_video self)) VIDEO_EXTENSIONS = true →
  Compress10MBPage.video_bitrate (video_duration self) = Returned b →
  spawn W (Compress10MBPage.first_pass_cmd W self b) (fs s) = (None, f1) →
  Compress10MBPage.create_video W self s
  = (Raised OSError,
     {| fs := f1; trace := trace s ++ [ Run (Compress10MBPage.first_pass_cmd W self b) ] |}).
Proof.
  intros Hin Hout Hb H1.
  unfold Compress10MBPage.create_video. rewrite Hin, Hout, Hb. simpl.
  unfold subprocess_run. unfold_M. by rewrite H1.
Qed.

Lemma encoder_runs_app t1 t2 : encoder_runs (t1 ++ t2) = encoder_runs t1 ++ encoder_runs t2.
Proof. apply List.filter_app. Qed.

Lemma encoder_runs_removes l : encoder_runs (Remove <$> l) = [].
Proof. induction l as [|x l IH]; [done | exact IH]. Qed.

(** C4 as stated fails: at 60 seconds the code computes 1,127,219 bps, which
    is neither 1,258,831 nor the value of the quoted formula
    (9*1024*1024*8 - 128000*60)/60 = 1,130,291 up to rounding. *)
Lemma C4_bitrate_at_60_seconds_is_not_1258831 :
  Compress10MBPage.video_bitrate 60 = Returned 1127219
  ∧ ¬ (∃ b, Compress10MBPage.video_bitrate 60 = Returned b ∧ Z.abs (b - 1258831) ≤ 1)
  ∧ ¬ (∃ b, Compress10MBPage.video_bitrate 60 = Returned b
            ∧ Z.abs (b - (9 * 1024 * 1024 * 8 - 128000 * 60) / 60) ≤ 1).
Proof.
  assert (H : Compress10MBPage.video_bitrate 60 = Returned 1127219) by reflexivity.
  split; [exact H|]. split; intros (b & Hb & Habs); rewrite H in Hb;
    injection Hb as <-; vm_compute in Habs; by apply Habs.
Qed.

Lemma removed_app t1 t2 : removed (t1 ++ t2) = removed t1 ++ removed t2.
Proof. unfold removed. apply omap_app. Qed.

Lemma removed_removes l : removed (Remove <$> l) = l.
Proof. induction l as [|x l IH]; [done|]. cbn. f_equal. exact IH. Qed.

(** C4, amended: with an input of 60 seconds, the target of 9 MiB and the
    audio budget the code uses, 128 * 1024 = 131072 bps, the video bitrate
    is (9*1024*1024*8 - 131072*60) / 60 truncated, 1,127,219 bps. The plan
    has exactly two encoder invocations, the first pass and the second pass
    at that bitrate: every run starts the first, starts the second exactly
    when the first has exited with status 0, and starts no other. It has
    exactly two cleanup targets, the two log files: once the second pass
    has been attempted, whatever its outcome, the run removes those of the
    two that exist, so that neither exists afterwards, and no run removes
    any other path. *)
Theorem C4_compression_of_60_seconds W self s :
  PyStr.mem (ext_of (input_video self)) VIDEO_EXTENSIONS = true →
  PyStr.mem (ext_of (output_video self)) VIDEO_EXTENSIONS = true →
  video_duration self = 60 →
  let first := Compress10MBPage.first_pass_cmd W self 1127219 in
  let second := Compress10MBPage.second_pass_cmd self 1127219 in
  let first_ok := exited_ok (spawn W first (fs s)).1 in
  let f2 := (spawn W second (spawn W first (fs s)).2).2 in
  Compress10MBPage.video_bitrate 60 = Returned 1127219
  ∧ Z.quot (9 * 1024 * 1024 * 8 - 131072 * 60) 60 = 1127219
  ∧ Compress10MBPage.log_files = [ "ffmpeg2pass-0.log"; "ffmpeg2pass-0.log.mbtree" ]
  ∧ ∃ r new s',
      Compress10MBPage.create_video W self s = (r, s')
      ∧ trace s' = trace s ++ new
      ∧ encoder_runs new = (if first_ok then [ Run first; Run second ] else [ Run first ])
      ∧ removed new
        = (if first_ok
           then List.filter (λ f, bool_decide (f ∈ cwd_files f2)) Compress10MBPage.log_files
           else [])
      ∧ (first_ok = true → Forall (λ f, f ∉ cwd_files (fs s')) Compress10MBPage.log_files).
Proof.
  intros Hin Hout Hd first second first_ok f2.
  assert (Hb : Compress10MBPage.video_bitrate (video_duration self) = Returned 1127219)
    by (rewrite Hd; reflexivity).
  split; [reflexivity|]. split; [reflexivity|]. split; [reflexivity|].
  subst first_ok f2.
  destruct (spawn W first (fs s)) as [[p1|] f1] eqn:H1; cbn [fst snd exited_ok].
  - destruct (Z.eqb_spec (returncode p1) 0) as [Hrc|Hrc].
    + pose proof (compress_after_first_pass W self s _ p1 f1 Hin Hout Hb H1 Hrc) as Hrun.
      cbv zeta in Hrun. fold second in Hrun.
      eexists _, _, _. split; [exact Hrun|]. cbn [fs trace cwd_files].
      split; [reflexivity|]. split; [|split].
      * change (?a :: ?b :: ?l) with ([a; b] ++ l).
        rewrite !encoder_runs_app, encoder_runs_removes, app_nil_r.
        destruct (spawn W second f1).1; reflexivity.
      * rewrite !removed_app, removed_removes.
        destruct (spawn W second f1).1; reflexivity.
      * intros _. apply Forall_forall. intros f Hf.
        rewrite elem_of_difference, elem_of_list_to_set. tauto.
    + pose proof (compress_first_pass_failed W self s _ p1 f1 Hin Hout Hb H1 Hrc) as Hrun.
      eexists _, _, _. split; [exact Hrun|]. cbn [fs trace].
      split; [reflexivity|]. split; [reflexivity|]. split; [reflexivity|]. discriminate.
  - pose proof (compress_first_pass_not_started W self s _ f1 Hin Hout Hb H1) as Hrun.
    eexists _, _, _. split; [exact Hrun|]. cbn [fs trace].
    split; [reflexivity|]. split; [reflexivity|]. split; [reflexivity|]. discriminate.
Qed.

Lemma C4_compression_of_60_seconds_witness :
  let W := Scenario.two_pass_tools 0 in
  let self := Scenario.window "/v/in.mp4" "/v/out.mp4" "" 30 60 in
  let s := initial Scenario.empty_fs in
  let first := Compress10MBPage.first_pass_cmd W self 1127219 in
  let second := Compress10MBPage.second_pass_cmd self 1127219 in
  (encoder_runs (trace (Compress10MBPage.create_video W self s).2) = [ Run first; Run second ]
   ∧ removed (trace (Compress10MBPage.create_video W self s).2)
     = [ "ffmpeg2pass-0.log"; "ffmpeg2pass-0.log.mbtree" ])
  ∧ Compress10MBPage.video_bitrate 60 = Returned 1127219
  ∧ Z.quot (9 * 1024 * 1024 * 8 - 131072 * 60) 60 = 1127219
  ∧ Compress10MBPage.log_files = [ "ffmpeg2pass-0.log"; "ffmpeg2pass-0.log.mbtree" ]
  ∧ ∃ r new s',
      Compress10MBPage.create_video W self s = (r, s')
      ∧ trace s' = trace s ++ new
      ∧ encoder_runs new
        = (if exited_ok (spawn W first (fs s)).1 then [ Run first; Run second ]
           else [ Run first ])
      ∧ removed new
        = (if exited_ok (spawn W first (fs s)).1
           then List.filter
                  (λ f, bool_decide
                          (f ∈ cwd_files (spawn W second (spawn W first (fs s)).2).2))
                  Compress10MBPage.log_files
           else [])
      ∧ (exited_ok (spawn W first (fs s)).1 = true →
         Forall (λ f, f ∉ cwd_files (fs s')) Compress10MBPage.log_files).
Proof.
  intros W self s first second. split.
  - split; vm_compute; reflexivity.
  - apply (C4_compression_of_60_seconds W self s); reflexivity.
Defined.

(** C6: for every request with two accepted paths and a positive duration,
    the first thing started is the first pass (video only, [-an], format
    [null] to the null file, [-pass 1], at the computed bitrate) and, when
    it exits with status 0, the only other encoder invocation is the second
    pass ([-pass 2], video at the same bitrate, audio [aac] at [128k], to
    the output path); when the first pass does not exit with status 0
    nothing else is started. For a duration below 2^32 seconds the bitrate
    is the quotient of the remaining bits by the duration, truncated. *)
Theorem C6_two_pass_invocations W self s :
  PyStr.mem (ext_of (input_video self)) VIDEO_EXTENSIONS = true →
  PyStr.mem (ext_of (output_video self)) VIDEO_EXTENSIONS = true →
  0 < video_duration self →
  ∃ b r new s',
    Compress10MBPage.create_video W self s = (r, s')
    ∧ trace s' = trace s ++ new
    ∧ (let first :=
         [ "ffmpeg"; "-y"; "-i"; input_video self; "-c:v"; "libx264";
           "-b:v"; PyStr.str_int b; "-pass"; "1"; "-an"; "-f"; "null";
           if os_name_is_nt W then "NUL" else "/dev/nul" ] in
       let second :=
         [ "ffmpeg"; "-i"; input_video self; "-c:v"; "libx264";
           "-b:v"; PyStr.str_int b; "-pass"; "2"; "-c:a"; "aac"; "-b:a"; "128k";
           output_video self ] in
       encoder_runs new
       = if exited_ok (spawn W first (fs s)).1 then [ Run first; Run second ]
         else [ Run first ])
    ∧ (video_duration self < 2 ^ 32 →
       b = Z.quot (9 * 1024 * 1024 * 8 - 128 * 1024 * video_duration self)
                  (video_duration self)).
Proof.
  intros Hin Hout Hd.
  pose proof (video_bitrate_quot (video_duration self) ltac:(lia)) as Hb.
  set (b := Z.quot _ _) in Hb.
  destruct (spawn W (Compress10MBPage.first_pass_cmd W self b) (fs s)) as [[p1|] f1] eqn:H1.
  - destruct (Z.eq_dec (returncode p1) 0) as [Hrc|Hrc].
    + pose proof (compress_after_first_pass W self s b p1 f1 Hin Hout Hb H1 Hrc) as Hrun.
      cbv zeta in Hrun. exists b. eexists _, _, _.
      split; [exact Hrun|]. split; [reflexivity|]. split; [|reflexivity].
      cbv zeta. fold (Compress10MBPage.null_file W).
      fold (Compress10MBPage.first_pass_cmd W self b).
      fold (Compress10MBPage.second_pass_cmd self b).
      rewrite H1. simpl. rewrite Hrc. simpl.
      change (?a :: ?b :: ?l) with ([a; b] ++ l).
      rewrite !encoder_runs_app, encoder_runs_removes, app_nil_r.
      destruct (spawn W _ f1).1; reflexivity.
    + pose proof (compress_first_pass_failed W self s b p1 f1 Hin Hout Hb H1 Hrc) as Hrun.
      exists b. eexists _, _, _.
      split; [exact Hrun|]. split; [reflexivity|]. split; [|reflexivity].
      cbv zeta. fold (Compress10MBPage.null_file W).
      fold (Compress10MBPage.first_pass_cmd W self b).
      rewrite H1. simpl. destruct (Z.eqb_spec (returncode p1) 0); [done|]. reflexivity.
  - pose proof (compress_first_pass_not_started W self s b f1 Hin Hout Hb H1) as Hrun.
    exists b. eexists _, _, _.
    split; [exact Hrun|]. split; [reflexivity|]. split; [|reflexivity].
    cbv zeta. fold (Compress10MBPage.null_file W).
    fold (Compress10MBPage.first_pass_cmd W self b).
    rewrite H1. reflexivity.
Qed.

Lemma C6_two_pass_invocations_witness :
  let W := Scenario.two_pass_tools 1 in
  let self := Scenario.window "/v/in.mp4" "/v/out.mp4" "" 30 60 in
  let s := initial Scenario.empty_fs in
  0 < video_duration self
  ∧ ∃ b r new s',
      Compress10MBPage.create_video W self s = (r, s')
      ∧ trace s' = trace s ++ new
      ∧ (let first :=
           [ "ffmpeg"; "-y"; "-i"; input_video self; "-c:v"; "libx264";
             "-b:v"; PyStr.str_int b; "-pass"; "1"; "-an"; "-f"; "null";
             if os_name_is_nt W then "NUL" else "/dev/nul" ] in
         let second :=
           [ "ffmpeg"; "-i"; input_video self; "-c:v"; "libx264";
             "-b:v"; PyStr.str_int b; "-pass"; "2"; "-c:a"; "aac"; "-b:a"; "128k";
             output_video self ] in
         encoder_runs new
         = if exited_ok (spawn W first (fs s)).1 then [ Run first; Run second ]
           else [ Run first ])
      ∧ (video_duration self < 2 ^ 32 →
         b = Z.quot (9 * 1024 * 1024 * 8 - 128 * 1024 * video_duration self)
                    (video_duration self)).
Proof.
  intros W self s. split; [reflexivity|].
  apply (C6_two_pass_invocations W self s); reflexivity.
Defined.

(** ** Trim *)

(** With a frame rate other than 0 both offsets resolve, to
    [m * 60 + s + f / frame_rate]. *)
Lemma trim_offsets_resolve self b :
  frame_rate self ≠ 0 →
  TrimPage.get_start_and_end_trim self b
  = Returned
      ((inject_Z (TrimPage.start_m b * 60 + TrimPage.start_s b)
        + inject_Z (TrimPage.start_f b) / inject_Z (frame_rate self))%Q,
       (inject_Z (TrimPage.end_m b * 60 + TrimPage.end_s b)
        + inject_Z (TrimPage.end_f b) / inject_Z (frame_rate self))%Q).
Proof.
  intros Hr. unfold TrimPage.get_start_and_end_trim, TrimPage.offset, PyNum.int_truediv.
  by destruct (Z.eqb_spec (frame_rate self) 0).
Qed.

(** Whenever the two offsets resolve (the frame rate is not 0) and the
    start is not before the end, [create_video] shows one failure message
    and returns; nothing is started. The message is the ordering error when
    both paths are accepted, and the invalid-video warning otherwise. *)
Lemma trim_start_not_before_end W str_float self b s start end_ :
  TrimPage.get_start_and_end_trim self b = Returned (start, end_) →
  (end_ <= start)%Q →
  ∃ m,
    TrimPage.create_video W str_float self b s
    = (Returned tt, {| fs := fs s; trace := trace s ++ [ Show m ] |})
    ∧ m = (if PyStr.mem (ext_of (input_video self)) VIDEO_EXTENSIONS
              && PyStr.mem (ext_of (output_video self)) VIDEO_EXTENSIONS
           then operation_failed (Text "Start time must be less than end time.")
           else invalid_video)
    ∧ encoder_runs [ Show m ] = [].
Proof.
  intros Hres Hle. unfold TrimPage.create_video.
  destruct (PyStr.mem (ext_of (input_video self)) VIDEO_EXTENSIONS);
    destruct (PyStr.mem (ext_of (output_video self)) VIDEO_EXTENSIONS); simpl;
    try (eexists; split; [reflexivity|]; split; reflexivity).
  rewrite Hres. unfold_M. simpl.
  apply Qle_bool_iff in Hle. rewrite Hle.
  eexists; split; [reflexivity|]; split; reflexivity.
Qed.

(** At frame rate 0 with two accepted paths the division in
    [get_start_and_end_trim] raises before the offsets are compared:
    [create_video] ends with [ZeroDivisionError], whatever the spin boxes
    hold, and nothing else happens: no message, no invocation. *)
Lemma trim_without_frame_rate W str_float self b s :
  PyStr.mem (ext_of (input_video self)) VIDEO_EXTENSIONS = true →
  PyStr.mem (ext_of (output_video self)) VIDEO_EXTENSIONS = true →
  frame_rate self = 0 →
  TrimPage.create_video W str_float self b s = (Raised ZeroDivisionError, s).
Proof.
  intros Hin Hout Hr. unfold TrimPage.create_video. cbv zeta.
  rewrite Hin, Hout. cbn [negb orb]. apply bind_raised.
  unfold lift, TrimPage.get_start_and_end_trim, TrimPage.offset, PyNum.int_truediv.
  by rewrite Hr.
Qed.

(** C7: at frame rate 0 (the value [_init_variables] sets and a failed
    probe leaves, although the probe itself makes sure that a frame rate it
    sets is at least 1) a trim whose start row is not before its end row,
    here two equal rows, is not rejected with the ordering error: with two
    accepted paths [create_video] raises [ZeroDivisionError], and no message
    box is shown. No encoder is started either. *)
Theorem C7_zero_frame_rate_raises_unhandled :
  ∀ W str_float s,
    TrimPage.create_video W str_float (Scenario.window "/v/in.mp4" "/v/out.mp4" "" 0 0)
      {| TrimPage.start_m := 0; TrimPage.start_s := 0; TrimPage.start_f := 0;
         TrimPage.end_m := 0; TrimPage.end_s := 0; TrimPage.end_f := 0 |} s
    = (Raised ZeroDivisionError, s).
Proof. intros W str_float s. by apply trim_without_frame_rate. Qed.

(** ** The metadata probe *)

Section ProbeFacts.
Context (W : World) (float : string → option pyfloat).

(** Whatever the probe does, [update_video_frame_rate] returns: with both
    fields set from one completed probe, or with the window as it was and
    the error printed. *)
Lemma update_video_frame_rate_cases self filename s :
  FFmpegGUI.update_video_frame_rate W float self filename s
  = match FFmpegGUI.probe W float filename s with
    | (Returned m, s1) => (Returned (FFmpegGUI.set_metadata self m), s1)
    | (Raised e, s1) =>
        (Returned self, {| fs := fs s1; trace := trace s1 ++ [ PrintError e ] |})
    end.
Proof.
  unfold FFmpegGUI.update_video_frame_rate. unfold_M.
  destruct (FFmpegGUI.probe W float filename s) as [[m|e] s1]; reflexivity.
Qed.

(** The frame-rate query, as far as the two strings around the slash. *)
Lemma probe_frame_rate_query filename s p1 f1 :
  spawn W (FFmpegGUI.frame_rate_query filename) (fs s) = (Some p1, f1) →
  subprocess_run W false (FFmpegGUI.frame_rate_query filename) s
  = (Returned p1,
     {| fs := f1; trace := trace s ++ [ Run (FFmpegGUI.frame_rate_query filename) ] |}).
Proof. intros H. unfold subprocess_run. by rewrite H. Qed.

(** The ways a probe fails: a tool that cannot be started, a frame rate
    that is not two parsable numbers around a slash, a zero denominator, a
    duration that does not parse. Each makes the body of the [try] raise. *)
Lemma probe_fails_frame_rate_tool filename s f1 :
  spawn W (FFmpegGUI.frame_rate_query filename) (fs s) = (None, f1) →
  ∃ s1, FFmpegGUI.probe W float filename s = (Raised OSError, s1).
Proof.
  intros H. unfold FFmpegGUI.probe, subprocess_run. unfold_M. rewrite H. eauto.
Qed.

Lemma probe_fails_no_slash filename s p1 f1 part :
  spawn W (FFmpegGUI.frame_rate_query filename) (fs s) = (Some p1, f1) →
  PyStr.split "/" (PyStr.strip (stdout p1)) = [ part ] →
  ∃ e s1, FFmpegGUI.probe W float filename s = (Raised e, s1).
Proof.
  intros H Hsplit. unfold FFmpegGUI.probe.
  rewrite (bind_returned _ _ _ _ _ (probe_frame_rate_query _ _ _ _ H)).
  cbv zeta. rewrite Hsplit. unfold FFmpegGUI.getitem, FFmpegGUI.py_float. simpl.
  unfold_M. destruct (float part); eauto.
Qed.

Lemma probe_fails_unparsable_rate filename s p1 f1 :
  spawn W (FFmpegGUI.frame_rate_query filename) (fs s) = (Some p1, f1) →
  (∃ part, part ∈ take 2 (PyStr.split "/" (PyStr.strip (stdout p1))) ∧ float part = None) →
  ∃ e s1, FFmpegGUI.probe W float filename s = (Raised e, s1).
Proof.
  intros H (part & Hin & Hnone). unfold FFmpegGUI.probe.
  rewrite (bind_returned _ _ _ _ _ (probe_frame_rate_query _ _ _ _ H)).
  cbv zeta. destruct (PyStr.split "/" (PyStr.strip (stdout p1))) as [|a [|b rest]];
    simpl in Hin.
  - by apply elem_of_nil in Hin.
  - apply list_elem_of_singleton in Hin as ->.
    unfold FFmpegGUI.getitem, FFmpegGUI.py_float. simpl. unfold_M. rewrite Hnone. eauto.
  - unfold FFmpegGUI.getitem, FFmpegGUI.py_float. simpl. unfold_M.
    apply elem_of_cons in Hin as [->|Hin].
    + rewrite Hnone. eauto.
    + apply elem_of_cons in Hin as [->|Hin]; [|by apply elem_of_nil in Hin].
      destruct (float a); [|eauto]. rewrite Hnone. eauto.
Qed.

Lemma probe_fails_zero_denominator filename s p1 f1 num_s den_s rest num den :
  spawn W (FFmpegGUI.frame_rate_query filename) (fs s) = (Some p1, f1) →
  PyStr.split "/" (PyStr.strip (stdout p1)) = num_s :: den_s :: rest →
  float num_s = Some num →
  float den_s = Some (Finite den) →
  (den == 0)%Q →
  ∃ s1, FFmpegGUI.probe W float filename s = (Raised ZeroDivisionError, s1).
Proof.
  intros H Hsplit Hnum Hden Hzero. unfold FFmpegGUI.probe.
  rewrite (bind_returned _ _ _ _ _ (probe_frame_rate_query _ _ _ _ H)).
  cbv zeta. rewrite Hsplit. unfold FFmpegGUI.getitem, FFmpegGUI.py_float. simpl.
  unfold_M. rewrite Hnum, Hden. unfold PyNum.float_div.
  apply Qeq_bool_iff in Hzero. rewrite Hzero. eauto.
Qed.

End ProbeFacts.

Section ProbeResolved.
Context (W : World) (float : string → option pyfloat).

(** Once the frame rate has resolved, the probe is decided by the
    duration query. *)
Lemma probe_after_frame_rate filename s p1 f1 num_s den_s rest num den :
  spawn W (FFmpegGUI.frame_rate_query filename) (fs s) = (Some p1, f1) →
  PyStr.split "/" (PyStr.strip (stdout p1)) = num_s :: den_s :: rest →
  float num_s = Some (Finite num) →
  float den_s = Some (Finite den) →
  ¬ (den == 0)%Q →
  FFmpegGUI.probe W float filename s
  = let '(r2, f2) := spawn W (FFmpegGUI.duration_query filename) f1 in
    let s2 := {| fs := f2;
                 trace := trace s ++ [ Run (FFmpegGUI.frame_rate_query filename);
                                       Run (FFmpegGUI.duration_query filename) ] |} in
    match r2 with
    | None => (Raised OSError, s2)
    | Some p2 =>
        match float (PyStr.strip (stdout p2)) with
        | None => (Raised ValueError, s2)
        | Some d =>
            match PyNum.int_of_float d with
            | Returned z => (Returned (resolved_rate num den, z), s2)
            | Raised e => (Raised e, s2)
            end
        end
    end.
Proof.
  intros H Hsplit Hnum Hden Hnz. unfold FFmpegGUI.probe.
  rewrite (bind_returned _ _ _ _ _ (probe_frame_rate_query _ _ _ _ _ H)).
  cbv zeta. rewrite Hsplit. unfold FFmpegGUI.getitem, FFmpegGUI.py_float. simpl.
  unfold_M. rewrite Hnum, Hden. unfold PyNum.float_div.
  destruct (Qeq_bool den 0) eqn:Hq; [by apply Qeq_bool_iff in Hq|]. simpl.
  unfold subprocess_run. simpl.
  destruct (spawn W (FFmpegGUI.duration_query filename) f1) as [[p2|] f2]; simpl;
    rewrite <- ?app_assoc; simpl; [|reflexivity].
  destruct (float (PyStr.strip (stdout p2))) as [d|]; [|reflexivity].
  destruct d as [q|n|]; reflexivity.
Qed.


(** The duration side of a failing probe: the tool does not start, or its
    output does not parse. *)
Lemma probe_fails_duration filename s p1 f1 num_s den_s rest num den :
  spawn W (FFmpegGUI.frame_rate_query filename) (fs s) = (Some p1, f1) →
  PyStr.split "/" (PyStr.strip (stdout p1)) = num_s :: den_s :: rest →
  float num_s = Some (Finite num) →
  float den_s = Some (Finite den) →
  ¬ (den == 0)%Q →
  match spawn W (FFmpegGUI.duration_query filename) f1 with
  | (None, _) => True
  | (Some p2, _) => float (PyStr.strip (stdout p2)) = None
  end →
  ∃ e s1, FFmpegGUI.probe W float filename s = (Raised e, s1).
Proof.
  intros H Hsplit Hnum Hden Hnz Hdur.
  rewrite (probe_after_frame_rate _ _ _ _ _ _ _ _ _ H Hsplit Hnum Hden Hnz).
  destruct (spawn W (FFmpegGUI.duration_query filename) f1) as [[p2|] f2]; [|eauto].
  rewrite Hdur. eauto.
Qed.

End ProbeResolved.



(** C9: whenever the probe raises, for whatever reason and at whichever of
    its two queries, [update_video_frame_rate] itself returns: the window is
    the one it was given, frame rate and duration included, and the error
    is printed. *)
Theorem C9_failed_probe_leaves_metadata W float self filename s e s1 :
  FFmpegGUI.probe W float filename s = (Raised e, s1) →
  ∃ self' s',
    FFmpegGUI.update_video_frame_rate W float self filename s = (Returned self', s')
    ∧ self' = self
    ∧ frame_rate self' = frame_rate self
    ∧ video_duration self' = video_duration self
    ∧ fs s' = fs s1
    ∧ trace s' = trace s1 ++ [ PrintError e ].
Proof.
  intros Hfail. rewrite update_video_frame_rate_cases, Hfail.
  eexists _, _. repeat split; reflexivity.
Qed.

Lemma C9_failed_probe_leaves_metadata_witness :
  let W := Scenario.tools "25/1" "N/A" 0 in
  let self := Scenario.window "/v/in.mp4" "" "" 30 60 in
  let s1 := {| fs := Scenario.empty_fs;
               trace := [ Run (FFmpegGUI.frame_rate_query "/v/other.mp4");
                          Run (FFmpegGUI.duration_query "/v/other.mp4") ] |} in
  FFmpegGUI.probe W Decimal.float_of_decimal "/v/other.mp4" (initial Scenario.empty_fs)
  = (Raised ValueError, s1)
  ∧ ∃ self' s',
      FFmpegGUI.update_video_frame_rate W Decimal.float_of_decimal self "/v/other.mp4"
        (initial Scenario.empty_fs) = (Returned self', s')
      ∧ self' = self
      ∧ frame_rate self' = 30
      ∧ video_duration self' = 60
      ∧ fs s' = fs s1
      ∧ trace s' = trace s1 ++ [ PrintError ValueError ].
Proof.
  intros W self s1. split; [reflexivity|].
  apply (C9_failed_probe_leaves_metadata W Decimal.float_of_decimal self "/v/other.mp4"
           (initial Scenario.empty_fs) ValueError s1).
  reflexivity.
Defined.

(** ** Files of the images directory *)


Lemma read_Some_name n c d : OS.read n d = Some c → n ∈ OS.names d.
Proof.
  induction d as [|[n' c'] d IH]; [done|]. simpl.
  destruct (String.eqb_spec n' n) as [->|Hne]; intros H.
  - apply elem_of_cons. by left.
  - apply elem_of_cons. right. by apply IH.
Qed.





(** ** Staged names *)



(** ** Staging *)




(** ** Deleting the used images *)









(** ** Image-to-video runs *)













(** The hundredth copy has three digits, and the pattern of the cleanup does
    not match it. *)
Lemma hundredth_copy_is_not_cleaned :
  ImageToVideoPage.staged_name 100 = "img-100.jpg"
  ∧ OS.fnmatch (ImageToVideoPage.staged_name 100) "img-??.jpg" = false.
Proof. split; reflexivity. Qed.

(** Outside these conditions [fix_naming] does overwrite: an entry that is
    already called [img-01.jpg] is replaced by the copy of the first image,
    and the cleanup after a successful run deletes it with the copies. *)
Lemma fix_naming_overwrites_an_original :
  ImageToVideoPage.create_video (Scenario.tools "" "" 0) (Scenario.window "" "/v/out.mp4" "" 0 0)
    (initial (Scenario.pictures [ ("b.png", "B"); ("img-01.jpg", "ORIGINAL") ]))
  = (Returned tt,
     {| fs := Scenario.pictures [ ("b.png", "B") ];
        trace :=
          [ Copy "/pics/b.png" "/pics/img-01.jpg";
            Copy "/pics/img-01.jpg" "/pics/img-02.jpg";
            Run (ImageToVideoPage.cmd (Scenario.window "" "/v/out.mp4" "" 0 0));
            Show (operation_success "Image to video conversion completed successfully.");
            Remove "/pics/img-01.jpg"; Remove "/pics/img-02.jpg" ] |}).
Proof. vm_compute. reflexivity. Qed.

(** ** Cleanup *)


(** The same happens to the two-pass log files when it is the first pass
    that fails: [create_video] returns before the [try ... finally] that
    removes them. *)
Lemma compress_first_pass_failure_leaves_logs :
  let self := Scenario.window "/v/in.mp4" "/v/out.mp4" "" 30 60 in
  let r := Compress10MBPage.create_video Scenario.failing_first_pass self
             (initial Scenario.empty_fs) in
  r.1 = Returned tt
  ∧ trace r.2
    = [ Run (Compress10MBPage.first_pass_cmd Scenario.failing_first_pass self 1127219);
        Show (operation_failed
                (ExnText "First pass failed: "
                   (CalledProcessError
                      (Compress10MBPage.first_pass_cmd Scenario.failing_first_pass self 1127219)
                      1))) ]
  ∧ "ffmpeg2pass-0.log" ∈ cwd_files (fs r.2)
  ∧ "ffmpeg2pass-0.log.mbtree" ∈ cwd_files (fs r.2).
Proof.
  intros self r.
  split; [reflexivity|]. split; [reflexivity|].
  split; apply (bool_decide_unpack _); vm_compute; exact I.
Qed.



(** ** Letter case of extensions *)

Lemma lower_char_eqb_slash c : Ascii.eqb (PyStr.lower_char c) "/" = Ascii.eqb c "/".
Proof. destruct c as [[] [] [] [] [] [] [] []]; reflexivity. Qed.

Lemma lower_char_eqb_dot c : Ascii.eqb (PyStr.lower_char c) "." = Ascii.eqb c ".".
Proof. destruct c as [[] [] [] [] [] [] [] []]; reflexivity. Qed.

Lemma lower_char_idem c : PyStr.lower_char (PyStr.lower_char c) = PyStr.lower_char c.
Proof. destruct c as [[] [] [] [] [] [] [] []]; reflexivity. Qed.

Lemma lower_idem s : PyStr.lower (PyStr.lower s) = PyStr.lower s.
Proof. induction s as [|c s IH]; [done|]. simpl. by rewrite lower_char_idem, IH. Qed.

Lemma length_lower s : String.length (PyStr.lower s) = String.length s.
Proof. induction s as [|c s IH]; [done|]. simpl. by rewrite IH. Qed.

Lemma split_lower s :
  PyStr.split "/" (PyStr.lower s) = PyStr.lower <$> PyStr.split "/" s.
Proof.
  induction s as [|c s IH]; [done|]. simpl. rewrite lower_char_eqb_slash, IH.
  destruct (Ascii.eqb c "/"); [done|].
  by destruct (PyStr.split "/" s).
Qed.

Lemma lower_eqb_empty s : String.eqb (PyStr.lower s) "" = String.eqb s "".
Proof. by destruct s. Qed.

Lemma lower_eqb_dot s : String.eqb (PyStr.lower s) "." = String.eqb s ".".
Proof.
  destruct s as [|c [|c' s]]; [done| |].
  - simpl. by rewrite lower_char_eqb_dot.
  - simpl. destruct (Ascii.eqb _ _), (Ascii.eqb _ _); reflexivity.
Qed.

Lemma last_lower l : List.last (PyStr.lower <$> l) "" = PyStr.lower (List.last l "").
Proof.
  induction l as [|x [|y l] IH]; [done | done |].
  change (List.last (PyStr.lower <$> x :: y :: l) "")
    with (List.last (PyStr.lower <$> y :: l) "").
  by rewrite IH.
Qed.

Lemma name_lower p : PathLib.name (PyStr.lower p) = PyStr.lower (PathLib.name p).
Proof.
  unfold PathLib.name. rewrite split_lower, <- last_lower. f_equal.
  induction (PyStr.split "/" p) as [|x l IH]; [done|].
  rewrite fmap_cons. simpl. rewrite lower_eqb_empty, lower_eqb_dot, IH.
  by destruct (negb (String.eqb x "") && negb (String.eqb x ".")).
Qed.

Lemma rfind_dot_lower s : ∀ pos, PyStr.rfind_dot (PyStr.lower s) pos = PyStr.rfind_dot s pos.
Proof.
  induction s as [|c s IH]; intros pos; [done|]. simpl.
  by rewrite IH, lower_char_eqb_dot.
Qed.

Lemma substring_lower s :
  ∀ i k, substring i k (PyStr.lower s) = PyStr.lower (substring i k s).
Proof.
  induction s as [|c s IH]; intros [|i] [|k]; simpl; try done; by rewrite IH.
Qed.

Lemma suffix_lower p : PathLib.suffix (PyStr.lower p) = PyStr.lower (PathLib.suffix p).
Proof.
  unfold PathLib.suffix. rewrite name_lower, rfind_dot_lower, length_lower.
  destruct (PyStr.rfind_dot (PathLib.name p) 0) as [i|]; [|done].
  destruct ((0 <? i)%nat && (S i <? String.length (PathLib.name p))%nat); [|done].
  apply substring_lower.
Qed.

Lemma ext_of_lower p : ext_of (PyStr.lower p) = ext_of p.
Proof. unfold ext_of. by rewrite suffix_lower, lower_idem. Qed.

(** X1: two ASCII paths that differ in the case of their letters only have
    the same extension, so every extension test of every page answers alike
    for both. *)
Theorem extension_ignores_letter_case p q :
  isascii p = true → isascii q = true →
  PyStr.lower p = PyStr.lower q →
  ext_of p = ext_of q
  ∧ ∀ table, PyStr.mem (ext_of p) table = PyStr.mem (ext_of q) table.
Proof.
  intros _ _ H. assert (Hext : ext_of p = ext_of q).
  { by rewrite <- (ext_of_lower p), <- (ext_of_lower q), H. }
  split; [done|]. intros table. by rewrite Hext.
Qed.

Lemma extension_ignores_letter_case_witness :
  PyStr.lower "/Videos/A.MP4" = PyStr.lower "/videos/a.Mp4"
  ∧ ext_of "/Videos/A.MP4" = ext_of "/videos/a.Mp4"
  ∧ ∀ table, PyStr.mem (ext_of "/Videos/A.MP4") table
             = PyStr.mem (ext_of "/videos/a.Mp4") table.
Proof.
  split; [reflexivity|].
  apply (extension_ignores_letter_case "/Videos/A.MP4" "/videos/a.Mp4"); reflexivity.
Defined.

(** ** Rejected paths *)

(** X2: a page whose input or output path is ASCII and does not have a
    video extension shows the invalid-video warning and does nothing else: it starts no
    program, asks the metadata tool nothing, copies and removes no file,
    and does not raise, whatever the duration, the frame rate, the spin
    boxes and the speed are. This holds for the input of the compression,
    the trim, the speed change, the concatenation and the audio extraction,
    for the second input of the concatenation, and for the output of the
    compression, the trim, the speed change, the concatenation and the
    image-to-video page (which then stages nothing). *)
Theorem pages_reject_non_video_paths W str_float self boxes speed s :
  let warned := (Returned tt, {| fs := fs s; trace := trace s ++ [ Show invalid_video ] |}) in
  (isascii (input_video self) = true →
   PyStr.mem (ext_of (input_video self)) VIDEO_EXTENSIONS = false →
   Compress10MBPage.create_video W self s = warned
   ∧ TrimPage.create_video W str_float self boxes s = warned
   ∧ SpeedPage.create_video W str_float self speed s = warned
   ∧ CatPage.create_video W self s = warned
   ∧ ExtractSoundPage.extract_audio W self s = warned)
  ∧ (isascii (input_video_2 self) = true →
     PyStr.mem (ext_of (input_video_2 self)) VIDEO_EXTENSIONS = false →
     CatPage.create_video W self s = warned)
  ∧ (isascii (output_video self) = true →
     PyStr.mem (ext_of (output_video self)) VIDEO_EXTENSIONS = false →
     Compress10MBPage.create_video W self s = warned
     ∧ TrimPage.create_video W str_float self boxes s = warned
     ∧ SpeedPage.create_video W str_float self speed s = warned
     ∧ CatPage.create_video W self s = warned
     ∧ ImageToVideoPage.create_video W self s = warned).
Proof.
  intros warned. subst warned. split; [|split].
  - intros _ H. unfold Compress10MBPage.create_video, TrimPage.create_video,
      SpeedPage.create_video, CatPage.create_video, ExtractSoundPage.extract_audio.
    rewrite H. repeat split; reflexivity.
  - intros _ H. unfold CatPage.create_video. rewrite H.
    by destruct (PyStr.mem (ext_of (input_video self)) VIDEO_EXTENSIONS).
  - intros _ H. unfold Compress10MBPage.create_video, TrimPage.create_video,
      SpeedPage.create_video, CatPage.create_video, ImageToVideoPage.create_video.
    rewrite H. repeat split; try reflexivity;
      destruct (PyStr.mem (ext_of (input_video self)) VIDEO_EXTENSIONS); try reflexivity;
      by destruct (PyStr.mem (ext_of (input_video_2 self)) VIDEO_EXTENSIONS).
Qed.

Lemma pages_reject_non_video_paths_witness :
  let W := Scenario.tools "" "" 0 in
  let self :=
    {| images_dir := "/pics"; input_video := "/v/song.mp3"; input_video_2 := "/v/notes.txt";
       output_video := "/v/out"; output_audio := "/v/out.mp3";
       frame_rate := 0; video_duration := 0 |} in
  let boxes := {| TrimPage.start_m := 0; TrimPage.start_s := 0; TrimPage.start_f := 0;
                  TrimPage.end_m := 0; TrimPage.end_s := 0; TrimPage.end_f := 0 |} in
  let s := initial (Scenario.pictures Scenario.album) in
  let warned := (Returned tt, {| fs := fs s; trace := trace s ++ [ Show invalid_video ] |}) in
  (Compress10MBPage.create_video W self s = warned
   ∧ TrimPage.create_video W Session.str_float self boxes s = warned
   ∧ SpeedPage.create_video W Session.str_float self SpeedPage.init s = warned
   ∧ CatPage.create_video W self s = warned
   ∧ ExtractSoundPage.extract_audio W self s = warned)
  ∧ CatPage.create_video W self s = warned
  ∧ (Compress10MBPage.create_video W self s = warned
     ∧ TrimPage.create_video W Session.str_float self boxes s = warned
     ∧ SpeedPage.create_video W Session.str_float self SpeedPage.init s = warned
     ∧ CatPage.create_video W self s = warned
     ∧ ImageToVideoPage.create_video W self s = warned).
Proof.
  intros W self boxes s warned.
  pose proof (pages_reject_non_video_paths W Session.str_float self boxes SpeedPage.init s)
    as (Hin & Hin2 & Hout).
  split; [apply Hin; reflexivity|]. split; [apply Hin2; reflexivity|].
  apply Hout; reflexivity.
Defined.

(** ** The size budget *)

(** X3: for a duration from 1 to 576 seconds the video bitrate is not
    negative, the video and the audio budget together fit the target of
    9 MiB, and one more bit per second of video would not. *)
Theorem bitrate_fills_the_target d :
  0 < d ≤ 576 →
  ∃ b,
    Compress10MBPage.video_bitrate d = Returned b
    ∧ 0 ≤ b
    ∧ (b + 128 * 1024) * d ≤ 9 * 1024 * 1024 * 8
    ∧ 9 * 1024 * 1024 * 8 < (b + 1 + 128 * 1024) * d.
Proof.
  intros Hd. eexists. split; [apply video_bitrate_quot; lia|].
  set (a := 75497472 - 131072 * d).
  assert (Ha : 0 ≤ a) by (subst a; lia).
  rewrite Z.quot_div_nonneg by lia.
  pose proof (Z.div_mod a d ltac:(lia)) as Hdm.
  pose proof (Z.mod_pos_bound a d ltac:(lia)) as Hm.
  pose proof (Z.div_pos a d Ha ltac:(lia)) as Hq.
  subst a. repeat split; nia.
Qed.

Lemma bitrate_fills_the_target_witness :
  0 < 60 ≤ 576
  ∧ ∃ b,
      Compress10MBPage.video_bitrate 60 = Returned b
      ∧ 0 ≤ b
      ∧ (b + 128 * 1024) * 60 ≤ 9 * 1024 * 1024 * 8
      ∧ 9 * 1024 * 1024 * 8 < (b + 1 + 128 * 1024) * 60.
Proof. split; [lia|]. apply (bitrate_fills_the_target 60). lia. Defined.

(** X4: from 576 seconds on (and below 2^32 seconds, the range in which
    the exact quotient is the one the code truncates) the audio budget alone
    uses up the target: the bitrate is 0 at 576 seconds and negative beyond. The page does not
    report it: with two accepted paths the first thing it does is to start
    the first pass with that bitrate. *)
Theorem long_input_is_encoded_at_a_non_positive_bitrate W self s :
  PyStr.mem (ext_of (input_video self)) VIDEO_EXTENSIONS = true →
  PyStr.mem (ext_of (output_video self)) VIDEO_EXTENSIONS = true →
  576 ≤ video_duration self < 2 ^ 32 →
  ∃ b r s' rest,
    Compress10MBPage.video_bitrate (video_duration self) = Returned b
    ∧ - (128 * 1024) < b ≤ 0
    ∧ (576 < video_duration self → b < 0)
    ∧ Compress10MBPage.create_video W self s = (r, s')
    ∧ trace s'
      = trace s
        ++ Run [ "ffmpeg"; "-y"; "-i"; input_video self; "-c:v"; "libx264";
                 "-b:v"; PyStr.str_int b; "-pass"; "1"; "-an"; "-f"; "null";
                 Compress10MBPage.null_file W ]
        :: rest.
Proof.
  intros Hin Hout [Hd _].
  pose proof (video_bitrate_quot (video_duration self) ltac:(lia)) as Hb.
  set (d := video_duration self) in *. set (b := Z.quot _ _) in Hb.
  assert (Hrange : - (128 * 1024) < b ≤ 0 ∧ (576 < d → b < 0)).
  { subst b. replace (75497472 - 131072 * d) with (- (131072 * (d - 576))) by lia.
    rewrite Z.quot_opp_l by lia. rewrite Z.quot_div_nonneg by lia.
    pose proof (Z.div_mod (131072 * (d - 576)) d ltac:(lia)) as Hdm.
    pose proof (Z.mod_pos_bound (131072 * (d - 576)) d ltac:(lia)) as Hm.
    pose proof (Z.div_pos (131072 * (d - 576)) d ltac:(lia) ltac:(lia)) as Hq.
    split; [split|]; [nia | lia |]. intros Hlong.
    assert (1 ≤ (131072 * (d - 576)) `div` d); [|lia].
    apply Z.div_le_lower_bound; lia. }
  destruct Hrange as [Hrange Hneg].
  exists b.
  destruct (spawn W (Compress10MBPage.first_pass_cmd W self b) (fs s)) as [[p1|] f1] eqn:H1.
  - destruct (Z.eq_dec (returncode p1) 0) as [Hrc|Hrc].
    + pose proof (compress_after_first_pass W self s b p1 f1 Hin Hout Hb H1 Hrc) as Hrun.
      cbv zeta in Hrun. eexists _, _, _.
      split; [exact Hb|]. split; [exact Hrange|]. split; [exact Hneg|].
      split; [exact Hrun|]. reflexivity.
    + pose proof (compress_first_pass_failed W self s b p1 f1 Hin Hout Hb H1 Hrc) as Hrun.
      eexists _, _, _.
      split; [exact Hb|]. split; [exact Hrange|]. split; [exact Hneg|].
      split; [exact Hrun|]. reflexivity.
  - pose proof (compress_first_pass_not_started W self s b f1 Hin Hout Hb H1) as Hrun.
    eexists _, _, _.
      split; [exact Hb|]. split; [exact Hrange|]. split; [exact Hneg|].
      split; [exact Hrun|]. reflexivity.
Qed.

Lemma long_input_is_encoded_at_a_non_positive_bitrate_witness :
  let W := Scenario.two_pass_tools 0 in
  let self := Scenario.window "/v/in.mp4" "/v/out.mp4" "" 30 3600 in
  let s := initial Scenario.empty_fs in
  576 ≤ video_duration self < 2 ^ 32
  ∧ ∃ b r s' rest,
      Compress10MBPage.video_bitrate (video_duration self) = Returned b
      ∧ - (128 * 1024) < b ≤ 0
      ∧ (576 < video_duration self → b < 0)
      ∧ Compress10MBPage.create_video W self s = (r, s')
      ∧ trace s'
        = trace s
          ++ Run [ "ffmpeg"; "-y"; "-i"; input_video self; "-c:v"; "libx264";
                   "-b:v"; PyStr.str_int b; "-pass"; "1"; "-an"; "-f"; "null";
                   Compress10MBPage.null_file W ]
          :: rest.
Proof.
  intros W self s. split; [split; [vm_compute; discriminate | reflexivity]|].
  apply (long_input_is_encoded_at_a_non_positive_bitrate W self s); try reflexivity.
  split; [vm_compute; discriminate | reflexivity].
Defined.

(** ** Trim offsets *)

(** With a positive frame rate an offset resolves, and it is the number of
    frames [(m * 60 + s) * frame_rate + f] over the frame rate. *)
Lemma offset_in_frames m s f r :
  0 < r →
  TrimPage.offset m s f r = Returned (inject_Z (m * 60 + s) + inject_Z f / inject_Z r)%Q
  ∧ (inject_Z (m * 60 + s) + inject_Z f / inject_Z r
     == ((m * 60 + s) * r + f) # Z.to_pos r)%Q.
Proof.
  intros Hr. split.
  - unfold TrimPage.offset, PyNum.int_truediv. destruct (Z.eqb_spec r 0); [lia|done].
  - destruct r as [|p|p]; try lia. unfold Qeq, Qplus, Qdiv, Qmult, Qinv, inject_Z. simpl.
    rewrite ?Pos.mul_1_l, ?Pos.mul_1_r, ?Z.mul_1_r. lia.
Qed.

Lemma Qle_same_den x y p : (x # p <= y # p)%Q ↔ x ≤ y.
Proof. unfold Qle. simpl. nia. Qed.

Lemma Qeq_same_den x y p : (x # p == y # p)%Q ↔ x = y.
Proof. unfold Qeq. simpl. nia. Qed.

(** Both offsets of the page, and how they compare. *)
Lemma trim_offsets_in_frames self b :
  0 < frame_rate self →
  let frames m s f := (m * 60 + s) * frame_rate self + f in
  let first := frames (TrimPage.start_m b) (TrimPage.start_s b) (TrimPage.start_f b) in
  let last := frames (TrimPage.end_m b) (TrimPage.end_s b) (TrimPage.end_f b) in
  ∃ start end_,
    TrimPage.get_start_and_end_trim self b = Returned (start, end_)
    ∧ (start == first # Z.to_pos (frame_rate self))%Q
    ∧ (end_ == last # Z.to_pos (frame_rate self))%Q
    ∧ (Qle_bool end_ start = true ↔ last ≤ first)
    ∧ (Qeq_bool start 0 = true ↔ first = 0)
    ∧ (Qeq_bool end_ 0 = true ↔ last = 0).
Proof.
  intros Hr frames first last.
  destruct (offset_in_frames (TrimPage.start_m b) (TrimPage.start_s b) (TrimPage.start_f b)
              (frame_rate self) Hr) as [Hs Hsq].
  destruct (offset_in_frames (TrimPage.end_m b) (TrimPage.end_s b) (TrimPage.end_f b)
              (frame_rate self) Hr) as [He Heq].
  eexists _, _. unfold TrimPage.get_start_and_end_trim. rewrite Hs, He.
  split; [reflexivity|]. split; [exact Hsq|]. split; [exact Heq|].
  split; [|split].
  - rewrite Qle_bool_iff, Hsq, Heq. apply Qle_same_den.
  - rewrite Qeq_bool_iff, Hsq.
    change 0%Q with (0 # 1)%Q. unfold Qeq. simpl. subst first frames. simpl. lia.
  - rewrite Qeq_bool_iff, Heq.
    change 0%Q with (0 # 1)%Q. unfold Qeq. simpl. subst last frames. simpl. lia.
Qed.

(** X5: with a positive frame rate below 2^16 and a duration below 2^31
    seconds (where the floats of the code compare as the exact offsets do),
    in the ranges that [update_trim_spinbox_ranges] sets (seconds up to 59,
    frames below the frame rate), the offset keeps the three values apart:
    two rows with the same offset hold the same minutes, seconds and
    frames. *)
Theorem equal_offsets_are_equal_rows self b start end_ :
  0 < frame_rate self < 2 ^ 16 →
  video_duration self < 2 ^ 31 →
  TrimRanges.in_ranges (TrimRanges.update_trim_spinbox_ranges self) b →
  TrimPage.get_start_and_end_trim self b = Returned (start, end_) →
  (start == end_)%Q →
  (TrimPage.start_m b, TrimPage.start_s b, TrimPage.start_f b)
  = (TrimPage.end_m b, TrimPage.end_s b, TrimPage.end_f b).
Proof.
  intros [Hr _] _ Hin Hget Hsame.
  destruct (trim_offsets_in_frames self b Hr) as (st & en & Hget' & Hst & Hen & _).
  rewrite Hget in Hget'. injection Hget' as <- <-.
  rewrite Hst, Hen in Hsame. apply Qeq_same_den in Hsame.
  unfold TrimRanges.in_ranges, TrimRanges.within in Hin. simpl in Hin.
  destruct Hin as (_ & Hss & Hsf & _ & Hes & Hef).
  set (r := frame_rate self) in *.
  assert (Hm : TrimPage.start_m b * 60 + TrimPage.start_s b
               = TrimPage.end_m b * 60 + TrimPage.end_s b) by nia.
  assert (TrimPage.start_f b = TrimPage.end_f b) by nia.
  assert (TrimPage.start_m b = TrimPage.end_m b) by lia.
  assert (TrimPage.start_s b = TrimPage.end_s b) by lia.
  congruence.
Qed.

Lemma equal_offsets_are_equal_rows_witness :
  let self := Scenario.window "/v/in.mp4" "/v/out.mp4" "" 30 120 in
  let b := {| TrimPage.start_m := 1; TrimPage.start_s := 5; TrimPage.start_f := 3;
              TrimPage.end_m := 1; TrimPage.end_s := 5; TrimPage.end_f := 3 |} in
  TrimRanges.update_trim_spinbox_ranges self
  = {| TrimRanges.minutes := (0, 2); TrimRanges.seconds := (0, 59);
       TrimRanges.frames := (0, 29); TrimRanges.input := (0, 120) |}
  ∧ (TrimPage.start_m b, TrimPage.start_s b, TrimPage.start_f b)
    = (TrimPage.end_m b, TrimPage.end_s b, TrimPage.end_f b).
Proof.
  intros self b. split; [reflexivity|].
  apply (equal_offsets_are_equal_rows self b
           (inject_Z 65 + inject_Z 3 / inject_Z 30)%Q (inject_Z 65 + inject_Z 3 / inject_Z 30)%Q).
  - split; reflexivity.
  - reflexivity.
  - unfold TrimRanges.in_ranges, TrimRanges.within.
    repeat split; apply Z.leb_le; reflexivity.
  - reflexivity.
  - reflexivity.
Defined.

(** ** Accepted trims *)

(** What [create_video] does with two accepted paths and a start before the
    end, once the stream query has answered: it starts the encoder with the
    bounds that are not 0, with an audio codec when the query printed
    something, and shows how that went. *)
Lemma trim_accepted W str_float self b s start end_ p f1 :
  PyStr.mem (ext_of (input_video self)) VIDEO_EXTENSIONS = true →
  PyStr.mem (ext_of (output_video self)) VIDEO_EXTENSIONS = true →
  TrimPage.get_start_and_end_trim self b = Returned (start, end_) →
  Qle_bool end_ start = false →
  spawn W (FFmpegGUI.stream_query (input_video self)) (fs s) = (Some p, f1) →
  let cmd :=
    [ "ffmpeg"; "-i"; input_video self ]
    ++ (if Qeq_bool start 0 then [] else [ "-ss"; str_float start ])
    ++ (if Qeq_bool end_ 0 then [] else [ "-to"; str_float end_ ])
    ++ [ "-c:v"; "libx264" ]
    ++ (if String.eqb (stdout p) "" then [] else [ "-c:a"; "aac" ])
    ++ [ output_video self ] in
  ∃ r s' shown,
    TrimPage.create_video W str_float self b s = (r, s')
    ∧ trace s' = trace s ++ [ Run (FFmpegGUI.stream_query (input_video self)); Run cmd ] ++ shown
    ∧ fs s' = (spawn W cmd f1).2
    ∧ shown = match (spawn W cmd f1).1 with
              | None => []
              | Some q =>
                  [ Show (if returncode q =? 0
                          then operation_success "Trim completed successfully."
                          else operation_failed
                                 (ExnStderr (CalledProcessError cmd (returncode q)))) ]
              end.
Proof.
  intros Hin Hout Hget Hord Hq cmd.
  unfold TrimPage.create_video. rewrite Hin, Hout, Hget. cbn [negb orb].
  unfold lift at 1. unfold mbind at 1, M_bind at 1. cbn beta iota. rewrite Hord.
  rewrite (bind_returned _ _ _ _ _ (has_audio_completed _ _ _ _ _ Hq)).
  assert (Hcmd :
    (let c := [ "ffmpeg"; "-i"; input_video self ] in
     let c := if negb (Qeq_bool start 0) then c ++ [ "-ss"; str_float start ] else c in
     let c := if negb (Qeq_bool end_ 0) then c ++ [ "-to"; str_float end_ ] else c in
     let c := c ++ [ "-c:v"; "libx264" ] in
     let c := if negb (String.eqb (stdout p) "") then c ++ [ "-c:a"; "aac" ] else c in
     c ++ [ output_video self ]) = cmd).
  { subst cmd. destruct (Qeq_bool start 0), (Qeq_bool end_ 0), (String.eqb (stdout p) "");
      reflexivity. }
  cbv zeta in Hcmd. rewrite Hcmd.
  set (s1 := {| fs := f1;
                trace := trace s ++ [ Run (FFmpegGUI.stream_query (input_video self)) ] |}).
  destruct (spawn W cmd f1) as [[q|] f2] eqn:Hrun; cbn [fst snd].
  - destruct (Z.eqb_spec (returncode q) 0) as [Hrc|Hrc].
    + eexists _, _, _. split.
      * erewrite try_except_returned; [reflexivity|].
        rewrite (bind_returned _ _ _ _ _ (subprocess_run_exit_0 W true cmd s1 q f2 Hrun Hrc)).
        apply show_returns.
      * subst s1. cbn [fs trace]. rewrite <- !app_assoc. repeat split.
    + eexists _, _, _. split.
      * erewrite try_except_raised;
          [|apply bind_raised, (subprocess_run_exit_other W cmd s1 q f2 Hrun Hrc)].
        cbn [on_CalledProcessError]. apply show_returns.
      * subst s1. cbn [fs trace]. rewrite <- !app_assoc. repeat split.
  - eexists _, _, _. split.
    + erewrite try_except_raised;
        [|apply bind_raised, (subprocess_run_not_started W true cmd s1 f2 Hrun)].
      reflexivity.
    + subst s1. cbn [fs trace]. rewrite <- !app_assoc. repeat split.
Qed.

(** X6: with two accepted paths, a positive frame rate below 2^16, a
    duration below 2^31 seconds and rows within the ranges of the spin
    boxes, the trim page shows the ordering error exactly when the end row,
    counted in frames [(m * 60 + s) * frame_rate + f], is not after the
    start row; within these bounds the comparison of the two float offsets
    is the comparison of these frame counts. *)
Theorem trim_is_rejected_exactly_when_end_is_not_after_start W str_float self b s :
  PyStr.mem (ext_of (input_video self)) VIDEO_EXTENSIONS = true →
  PyStr.mem (ext_of (output_video self)) VIDEO_EXTENSIONS = true →
  0 < frame_rate self < 2 ^ 16 →
  video_duration self < 2 ^ 31 →
  TrimRanges.in_ranges (TrimRanges.update_trim_spinbox_ranges self) b →
  let frames m s f := (m * 60 + s) * frame_rate self + f in
  TrimPage.create_video W str_float self b s
  = (Returned tt,
     {| fs := fs s;
        trace := trace s
                 ++ [ Show (operation_failed (Text "Start time must be less than end time.")) ] |})
  ↔ frames (TrimPage.end_m b) (TrimPage.end_s b) (TrimPage.end_f b)
    ≤ frames (TrimPage.start_m b) (TrimPage.start_s b) (TrimPage.start_f b).
Proof.
  intros Hin Hout [Hr _] _ _ frames.
  destruct (trim_offsets_in_frames self b Hr) as (st & en & Hget & _ & _ & Hle & _).
  cbv zeta beta in Hle. subst frames. cbv beta. rewrite <- Hle. clear Hle.
  destruct (Qle_bool en st) eqn:Hord.
  - split; [done|]. intros _.
    unfold TrimPage.create_video. rewrite Hin, Hout, Hget. cbn [negb orb].
    unfold lift at 1. unfold mbind at 1, M_bind at 1. cbn beta iota. by rewrite Hord.
  - split; [|done]. intros Hrun. exfalso.
    destruct (spawn W (FFmpegGUI.stream_query (input_video self)) (fs s)) as [[p|] f1] eqn:Hq.
    + destruct (trim_accepted W str_float self b s st en p f1 Hin Hout Hget Hord Hq)
        as (r & s' & shown & Hrun' & Htrace & _).
      rewrite Hrun in Hrun'. injection Hrun' as _ <-. cbn [trace] in Htrace.
      apply app_inv_head in Htrace. discriminate.
    + unfold TrimPage.create_video in Hrun. rewrite Hin, Hout, Hget in Hrun.
      cbn [negb orb] in Hrun. unfold lift at 1 in Hrun.
      unfold mbind at 1, M_bind at 1 in Hrun. cbn beta iota in Hrun. rewrite Hord in Hrun.
      rewrite (bind_raised _ _ _ _ _ (has_audio_not_started _ _ _ _ Hq)) in Hrun.
      discriminate.
Qed.

Lemma trim_is_rejected_exactly_when_end_is_not_after_start_witness :
  let self := Scenario.window "/v/in.mp4" "/v/out.mp4" "" 30 120 in
  let b := {| TrimPage.start_m := 1; TrimPage.start_s := 0; TrimPage.start_f := 0;
              TrimPage.end_m := 0; TrimPage.end_s := 59; TrimPage.end_f := 29 |} in
  let s := initial Scenario.empty_fs in
  TrimPage.create_video (Scenario.tools "" "" 0) Session.str_float self b s
  = (Returned tt,
     {| fs := fs s;
        trace := trace s
                 ++ [ Show (operation_failed (Text "Start time must be less than end time.")) ] |})
  ↔ (0 * 60 + 59) * 30 + 29 ≤ (1 * 60 + 0) * 30 + 0.
Proof.
  intros self b s.
  apply (trim_is_rejected_exactly_when_end_is_not_after_start
           (Scenario.tools "" "" 0) Session.str_float self b s); try reflexivity.
  - split; reflexivity.
  - unfold TrimRanges.in_ranges, TrimRanges.within.
    repeat split; apply Z.leb_le; reflexivity.
Defined.

(** The run of a trim whose rows are not negative and in order. *)
Lemma trim_ordered_rows_run W str_float self b s p f1 :
  PyStr.mem (ext_of (input_video self)) VIDEO_EXTENSIONS = true →
  PyStr.mem (ext_of (output_video self)) VIDEO_EXTENSIONS = true →
  0 < frame_rate self →
  0 ≤ TrimPage.start_m b → 0 ≤ TrimPage.start_s b → 0 ≤ TrimPage.start_f b →
  (TrimPage.start_m b * 60 + TrimPage.start_s b) * frame_rate self + TrimPage.start_f b
  < (TrimPage.end_m b * 60 + TrimPage.end_s b) * frame_rate self + TrimPage.end_f b →
  spawn W (FFmpegGUI.stream_query (input_video self)) (fs s) = (Some p, f1) →
  let offset m s f := (inject_Z (m * 60 + s) + inject_Z f / inject_Z (frame_rate self))%Q in
  let start := offset (TrimPage.start_m b) (TrimPage.start_s b) (TrimPage.start_f b) in
  let end_ := offset (TrimPage.end_m b) (TrimPage.end_s b) (TrimPage.end_f b) in
  let at_zero := (TrimPage.start_m b =? 0) && (TrimPage.start_s b =? 0)
                 && (TrimPage.start_f b =? 0) in
  let cmd :=
    [ "ffmpeg"; "-i"; input_video self ]
    ++ (if at_zero then [] else [ "-ss"; str_float start ])
    ++ [ "-to"; str_float end_ ]
    ++ [ "-c:v"; "libx264" ]
    ++ (if String.eqb (stdout p) "" then [] else [ "-c:a"; "aac" ])
    ++ [ output_video self ] in
  ∃ r s' shown,
    TrimPage.create_video W str_float self b s = (r, s')
    ∧ trace s' = trace s ++ [ Run (FFmpegGUI.stream_query (input_video self)); Run cmd ] ++ shown
    ∧ encoder_runs ([ Run (FFmpegGUI.stream_query (input_video self)); Run cmd ] ++ shown)
      = [ Run cmd ].
Proof.
  intros Hin Hout Hr Hm Hs Hf Hlt Hq offset start end_ at_zero cmd.
  destruct (trim_offsets_in_frames self b Hr) as (st & en & Hget & _ & _ & Hle & Hs0 & He0).
  cbv zeta in Hle, Hs0, He0.
  assert (Hget' : TrimPage.get_start_and_end_trim self b = Returned (start, end_)).
  { apply trim_offsets_resolve. lia. }
  rewrite Hget in Hget'. injection Hget' as -> ->.
  assert (Hord : Qle_bool end_ start = false).
  { apply not_true_iff_false. intros E. apply Hle in E. lia. }
  assert (Hend : Qeq_bool end_ 0 = false).
  { apply not_true_iff_false. intros E. apply He0 in E. nia. }
  assert (Hstart : Qeq_bool start 0 = at_zero).
  { subst at_zero. apply eq_true_iff_eq. rewrite Hs0, !andb_true_iff, !Z.eqb_eq. split.
    - intros E. nia.
    - intros [[Hz1 Hz2] Hz3]. rewrite Hz1, Hz2, Hz3. lia. }
  destruct (trim_accepted W str_float self b s start end_ p f1 Hin Hout Hget Hord Hq)
    as (r & s' & shown & Hrun & Htrace & _ & Hshown).
  cbv zeta in Htrace, Hshown. rewrite Hend, Hstart in Htrace, Hshown. fold cmd in Htrace, Hshown.
  exists r, s', shown. split; [exact Hrun|]. split; [exact Htrace|].
  rewrite Hshown. destruct (spawn W cmd f1).1; reflexivity.
Qed.

(** X7: with two accepted paths, a positive frame rate below 2^16, a
    duration below 2^31 seconds and rows within the ranges of the spin
    boxes (so that the floats of the code compare as the exact offsets do),
    a trim whose end row is after its start row always passes its end to
    the encoder as [-to], and passes [-ss] unless the start row is 0:0:0;
    the audio codec is there exactly when the stream query printed
    something. The encoder is started once, after that query. *)
Theorem accepted_trim_always_passes_its_end W str_float self b s p f1 :
  PyStr.mem (ext_of (input_video self)) VIDEO_EXTENSIONS = true →
  PyStr.mem (ext_of (output_video self)) VIDEO_EXTENSIONS = true →
  0 < frame_rate self < 2 ^ 16 →
  video_duration self < 2 ^ 31 →
  TrimRanges.in_ranges (TrimRanges.update_trim_spinbox_ranges self) b →
  (TrimPage.start_m b * 60 + TrimPage.start_s b) * frame_rate self + TrimPage.start_f b
  < (TrimPage.end_m b * 60 + TrimPage.end_s b) * frame_rate self + TrimPage.end_f b →
  spawn W (FFmpegGUI.stream_query (input_video self)) (fs s) = (Some p, f1) →
  let offset m s f := (inject_Z (m * 60 + s) + inject_Z f / inject_Z (frame_rate self))%Q in
  let start := offset (TrimPage.start_m b) (TrimPage.start_s b) (TrimPage.start_f b) in
  let end_ := offset (TrimPage.end_m b) (TrimPage.end_s b) (TrimPage.end_f b) in
  let at_zero := (TrimPage.start_m b =? 0) && (TrimPage.start_s b =? 0)
                 && (TrimPage.start_f b =? 0) in
  let cmd :=
    [ "ffmpeg"; "-i"; input_video self ]
    ++ (if at_zero then [] else [ "-ss"; str_float start ])
    ++ [ "-to"; str_float end_ ]
    ++ [ "-c:v"; "libx264" ]
    ++ (if String.eqb (stdout p) "" then [] else [ "-c:a"; "aac" ])
    ++ [ output_video self ] in
  ∃ r s' shown,
    TrimPage.create_video W str_float self b s = (r, s')
    ∧ trace s' = trace s ++ [ Run (FFmpegGUI.stream_query (input_video self)); Run cmd ] ++ shown
    ∧ encoder_runs ([ Run (FFmpegGUI.stream_query (input_video self)); Run cmd ] ++ shown)
      = [ Run cmd ].
Proof.
  intros Hin Hout [Hr _] _ Hranges.
  unfold TrimRanges.in_ranges, TrimRanges.within in Hranges. simpl in Hranges.
  destruct Hranges as ([Hm _] & [Hs _] & [Hf _] & _).
  by apply trim_ordered_rows_run.
Qed.

Lemma accepted_trim_always_passes_its_end_witness :
  let W := Scenario.tools "" "" 0 in
  let self := Scenario.window "/v/in.mp4" "/v/out.mp4" "" 30 120 in
  let b := {| TrimPage.start_m := 0; TrimPage.start_s := 0; TrimPage.start_f := 0;
              TrimPage.end_m := 0; TrimPage.end_s := 5; TrimPage.end_f := 3 |} in
  let s := initial Scenario.empty_fs in
  let cmd := [ "ffmpeg"; "-i"; "/v/in.mp4"; "-to"; "5.1"; "-c:v"; "libx264";
               "-c:a"; "aac"; "/v/out.mp4" ] in
  (0 * 60 + 0) * 30 + 0 < (0 * 60 + 5) * 30 + 3
  ∧ ∃ r s' shown,
      TrimPage.create_video W (λ _, "5.1") self b s = (r, s')
      ∧ trace s' = trace s ++ [ Run (FFmpegGUI.stream_query "/v/in.mp4"); Run cmd ] ++ shown
      ∧ encoder_runs ([ Run (FFmpegGUI.stream_query "/v/in.mp4"); Run cmd ] ++ shown)
        = [ Run cmd ].
Proof.
  intros W self b s cmd. split; [reflexivity|].
  apply (accepted_trim_always_passes_its_end W (λ _, "5.1") self b s
           (Scenario.exited 0 "[STREAM]") Scenario.empty_fs); try reflexivity.
  - split; reflexivity.
  - unfold TrimRanges.in_ranges, TrimRanges.within.
    repeat split; apply Z.leb_le; reflexivity.
Defined.

(** X8: the ranges of the spin boxes do not keep a row within the
    duration, and the page does not compare an offset with the duration:
    with a positive frame rate, the row at the top of the three ranges is
    in range, lies at or beyond the duration, and is passed to the encoder
    as the end of the trim. *)
Theorem trim_end_may_lie_beyond_the_duration W str_float self s p f1 :
  PyStr.mem (ext_of (input_video self)) VIDEO_EXTENSIONS = true →
  PyStr.mem (ext_of (output_video self)) VIDEO_EXTENSIONS = true →
  0 < frame_rate self →
  0 ≤ video_duration self →
  spawn W (FFmpegGUI.stream_query (input_video self)) (fs s) = (Some p, f1) →
  let b := {| TrimPage.start_m := 0; TrimPage.start_s := 0; TrimPage.start_f := 0;
              TrimPage.end_m := video_duration self `div` 60; TrimPage.end_s := 59;
              TrimPage.end_f := frame_rate self - 1 |} in
  let end_ := (inject_Z (video_duration self `div` 60 * 60 + 59)
               + inject_Z (frame_rate self - 1) / inject_Z (frame_rate self))%Q in
  TrimRanges.in_ranges (TrimRanges.update_trim_spinbox_ranges self) b
  ∧ (inject_Z (video_duration self) <= end_)%Q
  ∧ ∃ r s' shown,
      TrimPage.create_video W str_float self b s = (r, s')
      ∧ trace s'
        = trace s
          ++ [ Run (FFmpegGUI.stream_query (input_video self));
               Run ([ "ffmpeg"; "-i"; input_video self; "-to"; str_float end_;
                      "-c:v"; "libx264" ]
                    ++ (if String.eqb (stdout p) "" then [] else [ "-c:a"; "aac" ])
                    ++ [ output_video self ]) ]
          ++ shown.
Proof.
  intros Hin Hout Hr Hd Hq b end_.
  pose proof (Z.div_pos (video_duration self) 60 Hd ltac:(lia)) as Hdiv.
  pose proof (Z.div_mod (video_duration self) 60 ltac:(lia)) as Hdm.
  pose proof (Z.mod_pos_bound (video_duration self) 60 ltac:(lia)) as Hmod.
  split; [|split].
  - unfold TrimRanges.in_ranges, TrimRanges.within. simpl. lia.
  - destruct (offset_in_frames (video_duration self `div` 60) 59 (frame_rate self - 1)
                (frame_rate self) Hr) as [_ Heq].
    subst end_. rewrite Heq.
    assert (Hd' : (inject_Z (video_duration self)
                   == (video_duration self * frame_rate self) # Z.to_pos (frame_rate self))%Q).
    { unfold Qeq, inject_Z. simpl. rewrite Z2Pos.id by lia. lia. }
    rewrite Hd'. apply Qle_same_den. nia.
  - assert (Hlt : (TrimPage.start_m b * 60 + TrimPage.start_s b) * frame_rate self
                  + TrimPage.start_f b
                  < (TrimPage.end_m b * 60 + TrimPage.end_s b) * frame_rate self
                    + TrimPage.end_f b).
    { subst b. cbn [TrimPage.start_m TrimPage.start_s TrimPage.start_f
                    TrimPage.end_m TrimPage.end_s TrimPage.end_f].
      set (q := video_duration self `div` 60) in *. nia. }
    destruct (trim_ordered_rows_run W str_float self b s p f1 Hin Hout Hr
                ltac:(reflexivity) ltac:(reflexivity) ltac:(reflexivity) Hlt Hq)
      as (r & s' & shown & Hrun & Htrace & _).
    exists r, s', shown. split; [exact Hrun|]. exact Htrace.
Qed.

Lemma trim_end_may_lie_beyond_the_duration_witness :
  let W := Scenario.tools "" "" 0 in
  let self := Scenario.window "/v/in.mp4" "/v/out.mp4" "" 30 61 in
  let s := initial Scenario.empty_fs in
  let b := {| TrimPage.start_m := 0; TrimPage.start_s := 0; TrimPage.start_f := 0;
              TrimPage.end_m := 1; TrimPage.end_s := 59; TrimPage.end_f := 29 |} in
  let end_ := (inject_Z (61 `div` 60 * 60 + 59) + inject_Z (30 - 1) / inject_Z 30)%Q in
  TrimRanges.in_ranges (TrimRanges.update_trim_spinbox_ranges self) b
  ∧ (inject_Z 61 <= end_)%Q
  ∧ ∃ r s' shown,
      TrimPage.create_video W (λ _, "119.96666666666667") self b s = (r, s')
      ∧ trace s'
        = trace s
          ++ [ Run (FFmpegGUI.stream_query "/v/in.mp4");
               Run ([ "ffmpeg"; "-i"; "/v/in.mp4"; "-to"; "119.96666666666667";
                      "-c:v"; "libx264" ]
                    ++ [ "-c:a"; "aac" ] ++ [ "/v/out.mp4" ]) ]
          ++ shown.
Proof.
  intros W self s b end_.
  apply (trim_end_may_lie_beyond_the_duration W (λ _, "119.96666666666667") self s
           (Scenario.exited 0 "[STREAM]") Scenario.empty_fs); try reflexivity.
  vm_compute. discriminate.
Defined.

(** ** Every probe *)

(** Whatever the tools answer, the probe sends the frame-rate query, then
    at most the duration query, and a pair it returns holds a frame rate of
    at least 1. *)
Lemma probe_shape W float filename s :
  ∃ o s' new,
    FFmpegGUI.probe W float filename s = (o, s')
    ∧ trace s' = trace s ++ new
    ∧ (new = [ Run (FFmpegGUI.frame_rate_query filename) ]
       ∨ new = [ Run (FFmpegGUI.frame_rate_query filename);
                 Run (FFmpegGUI.duration_query filename) ])
    ∧ ∀ m, o = Returned m → 1 ≤ m.1.
Proof.
  unfold FFmpegGUI.probe, subprocess_run, FFmpegGUI.getitem, FFmpegGUI.py_float.
  unfold_M. cbn [andb].
  destruct (spawn W (FFmpegGUI.frame_rate_query filename) (fs s)) as [[p1|] f1];
    [|eexists _, _, _; split; [reflexivity|]; split; [reflexivity|]; split; [by left|done]].
  cbn [fs trace].
  destruct (PyStr.split "/" (PyStr.strip (stdout p1))) as [|a [|b rest]]; cbn [lookup list_lookup];
    try (destruct (float a) as [x|]);
    try (eexists _, _, _; split; [reflexivity|]; split; [reflexivity|]; split; [by left|done]).
  destruct (float b) as [y|];
    [|eexists _, _, _; split; [reflexivity|]; split; [reflexivity|]; split; [by left|done]].
  destruct (PyNum.float_div x y) as [ratio|e] eqn:Hdiv;
    [|eexists _, _, _; split; [reflexivity|]; split; [reflexivity|]; split; [by left|done]].
  destruct (PyNum.math_ceil ratio) as [fps|e] eqn:Hceil;
    [|eexists _, _, _; split; [reflexivity|]; split; [reflexivity|]; split; [by left|done]].
  cbn [fs trace].
  destruct (spawn W (FFmpegGUI.duration_query filename) f1) as [[p2|] f2]; cbn [fs trace];
    [|eexists _, _, _; split; [reflexivity|]; split;
        [rewrite <- app_assoc; reflexivity|]; split; [by right|done]].
  destruct (float (PyStr.strip (stdout p2))) as [d|];
    [|eexists _, _, _; split; [reflexivity|]; split;
        [rewrite <- app_assoc; reflexivity|]; split; [by right|done]].
  destruct (PyNum.int_of_float d) as [z|e];
    eexists _, _, _; (split; [reflexivity|]); (split; [rewrite <- app_assoc; reflexivity|]);
    (split; [by right|]); [|done].
  intros m Hm. injection Hm as <-. cbn [fst].
  destruct (Z.leb_spec fps 0); lia.
Qed.

(** The same for [update_video_frame_rate], which also catches what the
    probe raises. *)
Lemma update_video_frame_rate_shape W float self filename s :
  ∃ self' s' rest,
    FFmpegGUI.update_video_frame_rate W float self filename s = (Returned self', s')
    ∧ (self' = self ∨ 1 ≤ frame_rate self')
    ∧ (images_dir self', input_video self', input_video_2 self', output_video self',
       output_audio self')
      = (images_dir self, input_video self, input_video_2 self, output_video self,
         output_audio self)
    ∧ trace s' = trace s ++ Run (FFmpegGUI.frame_rate_query filename) :: rest
    ∧ Forall (λ ev, ev = Run (FFmpegGUI.duration_query filename) ∨ ∃ e, ev = PrintError e)
             rest.
Proof.
  rewrite update_video_frame_rate_cases.
  destruct (probe_shape W float filename s) as (o & s1 & new & Hprobe & Htrace & Hnew & Hrate).
  rewrite Hprobe. destruct o as [m|e].
  - destruct Hnew as [->| ->]; eexists (FFmpegGUI.set_metadata self m), s1, _;
      (split; [reflexivity|]); (split; [right; by apply Hrate|]); (split; [reflexivity|]);
      (split; [exact Htrace|]);
      repeat (apply Forall_cons; split; [auto|]); apply Forall_nil_2.
  - destruct Hnew as [->| ->];
      eexists self, {| fs := fs s1; trace := trace s1 ++ [ PrintError e ] |}, _;
      (split; [reflexivity|]); (split; [by left|]); (split; [reflexivity|]);
      (split; [cbn [trace]; rewrite Htrace, <- app_assoc; reflexivity|]);
      repeat (apply Forall_cons; split; [eauto|]); apply Forall_nil_2.
Qed.

(** X9: [update_video_frame_rate] never raises, whatever the tools and
    [float] do. It leaves the window as it was or sets a frame rate of at
    least 1; it never changes a path; and all it starts is the frame-rate
    query and, at most, the duration query, for the file it was given:
    never the encoder, and it copies and removes nothing. *)
Theorem probe_never_raises_and_keeps_the_frame_rate_positive W float self filename s :
  ∃ self' s' new,
    FFmpegGUI.update_video_frame_rate W float self filename s = (Returned self', s')
    ∧ (self' = self ∨ 1 ≤ frame_rate self')
    ∧ (images_dir self', input_video self', input_video_2 self', output_video self',
       output_audio self')
      = (images_dir self, input_video self, input_video_2 self, output_video self,
         output_audio self)
    ∧ trace s' = trace s ++ new
    ∧ Forall (λ ev, ev = Run (FFmpegGUI.frame_rate_query filename)
                    ∨ ev = Run (FFmpegGUI.duration_query filename)
                    ∨ ∃ e, ev = PrintError e) new
    ∧ encoder_runs new = [].
Proof.
  destruct (update_video_frame_rate_shape W float self filename s)
    as (self' & s' & rest & Hrun & Hrate & Hpaths & Htrace & Hrest).
  exists self', s', (Run (FFmpegGUI.frame_rate_query filename) :: rest).
  split; [exact Hrun|]. split; [exact Hrate|]. split; [exact Hpaths|]. split; [exact Htrace|].
  split.
  - apply Forall_cons. split; [by left|].
    eapply Forall_impl; [exact Hrest|]. intros ev [->|He]; auto.
  - change (encoder_runs rest = []). clear Htrace.
    induction Hrest as [|ev rest Hev _ IH]; [done|].
    destruct Hev as [->|[e ->]]; exact IH.
Qed.

(** ** Choosing an input *)

(** X10: choosing the second input of a concatenation stores the path as
    [input_video_2] and leaves [input_video] alone, but the probe that
    follows asks about [input_video], the first input: the chosen file is
    never asked about, and frame rate and duration never describe it. *)
Theorem second_input_is_never_probed W float self file_path s :
  file_path ≠ "" →
  ∃ self' s' rest,
    Selection.get_input_video W float self file_path true s
    = (Returned (self', Some (file_path, TrimRanges.update_trim_spinbox_ranges self')), s')
    ∧ input_video self' = input_video self
    ∧ input_video_2 self' = file_path
    ∧ trace s' = trace s ++ Run (FFmpegGUI.frame_rate_query (input_video self)) :: rest
    ∧ Forall (λ ev, ev = Run (FFmpegGUI.duration_query (input_video self))
                    ∨ ∃ e, ev = PrintError e) rest.
Proof.
  intros Hpath. unfold Selection.get_input_video.
  destruct (String.eqb_spec file_path "") as [|_]; [done|]. cbn [negb].
  destruct (update_video_frame_rate_shape W float (Selection.set_input_video_2 self file_path)
              (input_video self) s)
    as (self' & s' & rest & Hrun & _ & Hpaths & Htrace & Hrest).
  exists self', s', rest.
  change (input_video (Selection.set_input_video_2 self file_path)) with (input_video self).
  rewrite (bind_returned _ _ _ _ _ Hrun).
  injection Hpaths as _ Hin Hin2 _ _.
  split; [reflexivity|]. split; [exact Hin|]. split; [exact Hin2|].
  split; [exact Htrace|exact Hrest].
Qed.

Lemma second_input_is_never_probed_witness :
  let W := Scenario.tools Scenario.ntsc_rate Scenario.ntsc_seconds 0 in
  let self := Scenario.window "/v/first.mp4" "" "" 0 0 in
  "/v/second.mp4" ≠ ""
  ∧ ∃ self' s' rest,
      Selection.get_input_video W Decimal.float_of_decimal self "/v/second.mp4" true
        (initial Scenario.empty_fs)
      = (Returned (self', Some ("/v/second.mp4", TrimRanges.update_trim_spinbox_ranges self')),
         s')
      ∧ input_video self' = "/v/first.mp4"
      ∧ input_video_2 self' = "/v/second.mp4"
      ∧ trace s' = [] ++ Run (FFmpegGUI.frame_rate_query "/v/first.mp4") :: rest
      ∧ Forall (λ ev, ev = Run (FFmpegGUI.duration_query "/v/first.mp4")
                      ∨ ∃ e, ev = PrintError e) rest.
Proof.
  intros W self. split; [discriminate|].
  apply (second_input_is_never_probed W Decimal.float_of_decimal self "/v/second.mp4"
           (initial Scenario.empty_fs)).
  discriminate.
Defined.

(** X11: when the probe of a newly chosen first input fails, the new path
    is kept all the same: [input_video] is the new file, while frame rate
    and duration, and the ranges of the trim spin boxes computed from them,
    are still those of the file chosen before. *)
Theorem failed_probe_leaves_stale_metadata W float self file_path s e s1 :
  file_path ≠ "" →
  FFmpegGUI.probe W float file_path s = (Raised e, s1) →
  ∃ self',
    Selection.get_input_video W float self file_path false s
    = (Returned (self', Some (file_path, TrimRanges.update_trim_spinbox_ranges self)),
       {| fs := fs s1; trace := trace s1 ++ [ PrintError e ] |})
    ∧ input_video self' = file_path
    ∧ frame_rate self' = frame_rate self
    ∧ video_duration self' = video_duration self.
Proof.
  intros Hpath Hfail. unfold Selection.get_input_video.
  destruct (String.eqb_spec file_path "") as [|_]; [done|]. cbn [negb].
  change (input_video (Selection.set_input_video self file_path)) with file_path.
  erewrite bind_returned; [|rewrite update_video_frame_rate_cases, Hfail; reflexivity].
  eexists. split; [reflexivity|]. repeat split.
Qed.

Lemma failed_probe_leaves_stale_metadata_witness :
  let W := Session.silent_probe in
  let self := Scenario.window "/v/long.mp4" "/v/out.mp4" "" 30 3600 in
  let s1 := {| fs := Scenario.empty_fs;
               trace := [ Run (FFmpegGUI.frame_rate_query "/v/short.mp4") ] |} in
  FFmpegGUI.probe W Decimal.float_of_decimal "/v/short.mp4" (initial Scenario.empty_fs)
  = (Raised ValueError, s1)
  ∧ ∃ self',
      Selection.get_input_video W Decimal.float_of_decimal self "/v/short.mp4" false
        (initial Scenario.empty_fs)
      = (Returned (self', Some ("/v/short.mp4", TrimRanges.update_trim_spinbox_ranges self)),
         {| fs := fs s1; trace := trace s1 ++ [ PrintError ValueError ] |})
      ∧ input_video self' = "/v/short.mp4"
      ∧ frame_rate self' = 30
      ∧ video_duration self' = 3600.
Proof.
  intros W self s1. split; [reflexivity|].
  apply (failed_probe_leaves_stale_metadata W Decimal.float_of_decimal self "/v/short.mp4"
           (initial Scenario.empty_fs) ValueError s1); [discriminate | reflexivity].
Defined.

(** X12: in a window that holds no duration yet (0, as [_init_variables]
    sets it), choosing an input with a video extension whose probe fails
    and then compressing it to an accepted output raises
    [ZeroDivisionError]: the only thing the user has seen is the printed
    probe error, and no encoder is started. *)
Theorem compressing_after_a_failed_first_probe_raises W float self file_path s e s1 :
  file_path ≠ "" →
  PyStr.mem (ext_of file_path) VIDEO_EXTENSIONS = true →
  PyStr.mem (ext_of (output_video self)) VIDEO_EXTENSIONS = true →
  video_duration self = 0 →
  FFmpegGUI.probe W float file_path s = (Raised e, s1) →
  (Selection.get_input_video W float self file_path false
   ≫= λ chosen, Compress10MBPage.create_video W chosen.1) s
  = (Raised ZeroDivisionError, {| fs := fs s1; trace := trace s1 ++ [ PrintError e ] |}).
Proof.
  intros Hpath Hext Hout Hzero Hfail. unfold Selection.get_input_video.
  destruct (String.eqb_spec file_path "") as [|_]; [done|]. cbn [negb].
  change (input_video (Selection.set_input_video self file_path)) with file_path.
  erewrite bind_returned;
    [|erewrite bind_returned;
        [reflexivity | rewrite update_video_frame_rate_cases, Hfail; reflexivity]].
  cbn [fst]. by apply compress_without_duration.
Qed.

Lemma compressing_after_a_failed_first_probe_raises_witness :
  let W := Session.silent_probe in
  let self := Scenario.window "" "/v/out.mp4" "" 0 0 in
  let s1 := {| fs := Scenario.empty_fs;
               trace := [ Run (FFmpegGUI.frame_rate_query "/v/clip.mp4") ] |} in
  FFmpegGUI.probe W Decimal.float_of_decimal "/v/clip.mp4" (initial Scenario.empty_fs)
  = (Raised ValueError, s1)
  ∧ (Selection.get_input_video W Decimal.float_of_decimal self "/v/clip.mp4" false
     ≫= λ chosen, Compress10MBPage.create_video W chosen.1) (initial Scenario.empty_fs)
    = (Raised ZeroDivisionError,
       {| fs := fs s1; trace := trace s1 ++ [ PrintError ValueError ] |}).
Proof.
  intros W self s1. split; [reflexivity|].
  apply (compressing_after_a_failed_first_probe_raises W Decimal.float_of_decimal self
           "/v/clip.mp4" (initial Scenario.empty_fs) ValueError s1);
    [discriminate | reflexivity | reflexivity | reflexivity | reflexivity].
Defined.

(** ** Audio extraction: the messages and the codecs *)

(** X13: for a video input whose stream query answers and an ASCII output
    path, the extraction is refused with one message and without starting the encoder when the
    output extension is not an audio extension or the query printed
    nothing. The message is the invalid-audio warning whenever the output
    extension is not an audio extension, also for a video without an audio
    stream, and the no-audio-stream error otherwise; the stream query has
    been sent in both cases. *)
Theorem extraction_is_refused_with_one_message W self s p f1 :
  PyStr.mem (ext_of (input_video self)) VIDEO_EXTENSIONS = true →
  isascii (output_audio self) = true →
  spawn W (FFmpegGUI.stream_query (input_video self)) (fs s) = (Some p, f1) →
  PyStr.mem (ext_of (output_audio self)) AUDIO_EXTENSIONS = false ∨ stdout p = "" →
  ExtractSoundPage.extract_audio W self s
  = (Returned tt,
     {| fs := f1;
        trace := trace s
                 ++ [ Run (FFmpegGUI.stream_query (input_video self));
                      Show (if PyStr.mem (ext_of (output_audio self)) AUDIO_EXTENSIONS
                            then no_audio_stream else invalid_audio) ] |}).
Proof.
  intros Hin _ Hq Hbad. unfold ExtractSoundPage.extract_audio. rewrite Hin. cbn [negb].
  unfold mbind at 1, M_bind at 1.
  rewrite (bind_returned _ _ _ _ _ (has_audio_completed _ _ _ _ _ Hq)).
  destruct (String.eqb_spec (stdout p) "") as [Hempty|Hprinted]; cbn [negb].
  - unfold mret, M_ret.
    destruct (PyStr.mem (ext_of (output_audio self)) AUDIO_EXTENSIONS);
      cbn [negb]; rewrite show_returns; cbn [fs trace]; by rewrite <- app_assoc.
  - destruct Hbad as [Hout|]; [|done]. rewrite Hout. unfold mret, M_ret. cbn [negb].
    rewrite show_returns. cbn [fs trace]. by rewrite <- app_assoc.
Qed.

Lemma extraction_is_refused_with_one_message_witness :
  let W := Scenario.tools "" "" 0 in
  let self := Scenario.window "/v/in.mp4" "" "/v/out.txt" 0 0 in
  PyStr.mem (ext_of (output_audio self)) AUDIO_EXTENSIONS = false
  ∧ ExtractSoundPage.extract_audio W self (initial Scenario.empty_fs)
    = (Returned tt,
       {| fs := Scenario.empty_fs;
          trace := [] ++ [ Run (FFmpegGUI.stream_query "/v/in.mp4"); Show invalid_audio ] |}).
Proof.
  intros W self. split; [reflexivity|].
  apply (extraction_is_refused_with_one_message W self (initial Scenario.empty_fs)
           (Scenario.exited 0 "[STREAM]") Scenario.empty_fs);
    [reflexivity | reflexivity | reflexivity | left; reflexivity].
Defined.

Lemma codec_key_is_audio e codec :
  AUDIO_CODEC_MAP !! e = Some codec → PyStr.mem e AUDIO_EXTENSIONS = true.
Proof.
  intros H. pose proof codec_keys_are_audio as Hkeys. rewrite Forall_forall in Hkeys.
  apply Hkeys. apply elem_of_map_to_list in H.
  change e with (e, codec).1. by apply list_elem_of_fmap_2.
Qed.

(** X14: every extension of [AUDIO_CODEC_MAP] passes the audio test, so
    each of its codecs can be reached: for a video input with an audio
    stream and an output extension with a codec, the encoder is started
    exactly once, after the stream query, on the audio stream only and with
    that codec, and the message shown tells whether it exited with
    status 0. *)
Theorem extraction_runs_the_codec_of_the_table W self s p f1 codec :
  PyStr.mem (ext_of (input_video self)) VIDEO_EXTENSIONS = true →
  AUDIO_CODEC_MAP !! ext_of (output_audio self) = Some codec →
  spawn W (FFmpegGUI.stream_query (input_video self)) (fs s) = (Some p, f1) →
  stdout p ≠ "" →
  let cmd := [ "ffmpeg"; "-i"; input_video self; "-map"; "0:a"; "-q:a"; "0";
               "-acodec"; codec; output_audio self ] in
  ∃ r s',
    ExtractSoundPage.extract_audio W self s = (r, s')
    ∧ fs s' = (spawn W cmd f1).2
    ∧ trace s'
      = trace s
        ++ [ Run (FFmpegGUI.stream_query (input_video self)); Run cmd ]
        ++ match (spawn W cmd f1).1 with
           | None => []
           | Some q =>
               [ Show (if returncode q =? 0
                       then operation_success "Audio extraction completed successfully."
                       else operation_failed
                              (ExnText "" (CalledProcessError cmd (returncode q)))) ]
           end.
Proof.
  intros Hin Hcodec Hq Hprinted cmd.
  pose proof (codec_key_is_audio _ _ Hcodec) as Hout.
  unfold ExtractSoundPage.extract_audio. rewrite Hin, Hout. cbn [negb].
  unfold mbind at 1, M_bind at 1.
  rewrite (bind_returned _ _ _ _ _ (has_audio_completed _ _ _ _ _ Hq)).
  destruct (String.eqb_spec (stdout p) "") as [|_]; [done|]. cbn [negb].
  unfold mret at 1, M_ret at 1. cbn beta iota.
  unfold ExtractSoundPage.codec_for. rewrite Hcodec.
  unfold mbind at 1, M_bind at 1. unfold mret at 1, M_ret at 1. cbn beta iota.
  fold cmd.
  set (s1 := {| fs := f1;
                trace := trace s ++ [ Run (FFmpegGUI.stream_query (input_video self)) ] |}).
  destruct (spawn W cmd f1) as [[q|] f2] eqn:Hrun; cbn [fst snd].
  - destruct (Z.eqb_spec (returncode q) 0) as [Hrc|Hrc].
    + eexists _, _. split.
      * erewrite try_except_returned; [reflexivity|].
        rewrite (bind_returned _ _ _ _ _ (subprocess_run_exit_0 W true cmd s1 q f2 Hrun Hrc)).
        apply show_returns.
      * subst s1. cbn [fs trace]. rewrite <- !app_assoc. by split.
    + eexists _, _. split.
      * erewrite try_except_raised;
          [|apply bind_raised, (subprocess_run_exit_other W cmd s1 q f2 Hrun Hrc)].
        cbn [on_CalledProcessError]. apply show_returns.
      * subst s1. cbn [fs trace]. rewrite <- !app_assoc. by split.
  - eexists _, _. split.
    + erewrite try_except_raised;
        [|apply bind_raised, (subprocess_run_not_started W true cmd s1 f2 Hrun)].
      reflexivity.
    + subst s1. cbn [fs trace]. rewrite <- !app_assoc. by split.
Qed.

Lemma extraction_runs_the_codec_of_the_table_witness :
  let W := Scenario.tools "" "" 0 in
  let self := Scenario.window "/v/in.mp4" "" "/v/out.FLAC" 0 0 in
  let cmd := [ "ffmpeg"; "-i"; "/v/in.mp4"; "-map"; "0:a"; "-q:a"; "0";
               "-acodec"; "flac"; "/v/out.FLAC" ] in
  AUDIO_CODEC_MAP !! ext_of (output_audio self) = Some "flac"
  ∧ ∃ r s',
      ExtractSoundPage.extract_audio W self (initial Scenario.empty_fs) = (r, s')
      ∧ fs s' = (spawn W cmd Scenario.empty_fs).2
      ∧ trace s'
        = []
          ++ [ Run (FFmpegGUI.stream_query "/v/in.mp4"); Run cmd ]
          ++ match (spawn W cmd Scenario.empty_fs).1 with
             | None => []
             | Some q =>
                 [ Show (if returncode q =? 0
                         then operation_success "Audio extraction completed successfully."
                         else operation_failed
                                (ExnText "" (CalledProcessError cmd (returncode q)))) ]
             end.
Proof.
  intros W self cmd. split; [reflexivity|].
  apply (extraction_runs_the_codec_of_the_table W self (initial Scenario.empty_fs)
           (Scenario.exited 0 "[STREAM]") Scenario.empty_fs "flac");
    [reflexivity | reflexivity | reflexivity | discriminate].
Defined.

(** ** Names of staged copies *)













(** ** Staging meets an entry that already bears the name of its copy *)

Lemma fix_naming_loop_skips dir pre :
  ∀ rest num,
    ImageToVideoPage.images_of pre = [] →
    ImageToVideoPage.fix_naming_loop dir (OS.names pre ++ rest) num
    = ImageToVideoPage.fix_naming_loop dir rest num.
Proof.
  induction pre as [|[n c] pre IH]; intros rest num Hpre; [done|].
  unfold ImageToVideoPage.images_of in Hpre. cbn [List.filter fst] in Hpre.
  destruct (ImageToVideoPage.is_image n) eqn:Hn; [discriminate|].
  unfold OS.names. cbn [fmap list_fmap fst app ImageToVideoPage.fix_naming_loop].
  unfold ImageToVideoPage.is_image in Hn. rewrite Hn. by apply IH.
Qed.

(** X15: when the first image the directory lists is itself called
    [img-01.jpg] (as after an earlier run whose encoder failed, which leaves
    the staged copies behind), [shutil.copy] is asked to copy the file onto
    itself: [SameFileError] leaves [create_video] uncaught, nothing has been
    copied, no message is shown and the encoder is not started. *)
Theorem first_image_named_img_01_stops_the_page W self s pre c post :
  PyStr.mem (ext_of (output_video self)) VIDEO_EXTENSIONS = true →
  images_dir_files (fs s) = pre ++ ("img-01.jpg", c) :: post →
  ImageToVideoPage.images_of pre = [] →
  ImageToVideoPage.create_video W self s
  = (Raised (SameFileError (PathLib.join (images_dir self) "img-01.jpg")
                           (PathLib.join (images_dir self) "img-01.jpg")), s).
Proof.
  intros Hout Hdir Hpre. unfold ImageToVideoPage.create_video. cbv zeta.
  rewrite Hout. cbn [negb].
  apply bind_raised. unfold ImageToVideoPage.fix_naming.
  rewrite (bind_returned _ _ s (OS.names (images_dir_files (fs s))) s) by reflexivity.
  rewrite Hdir. unfold OS.names at 1. rewrite fmap_app. cbn [fmap list_fmap fst].
  rewrite (fix_naming_loop_skips _ pre _ _ Hpre).
  cbn [ImageToVideoPage.fix_naming_loop].
  change (PyStr.mem (ext_of "img-01.jpg") IMAGE_EXTENSIONS) with true. cbv iota.
  apply bind_raised. unfold OS.shutil_copy. cbv zeta.
  change (ImageToVideoPage.staged_name 1) with "img-01.jpg".
  rewrite String.eqb_refl, andb_true_r.
  rewrite bool_decide_eq_true_2; [reflexivity|].
  rewrite Hdir. unfold OS.names. rewrite fmap_app. apply elem_of_app. right.
  cbn [fmap list_fmap fst]. apply elem_of_cons. by left.
Qed.

Lemma first_image_named_img_01_stops_the_page_witness :
  let W := Scenario.tools "" "" 0 in
  let self := Scenario.window "" "/v/out.mp4" "" 0 0 in
  let s := initial (Scenario.pictures
                      [ ("notes.txt", "N"); ("img-01.jpg", "A"); ("b.png", "B") ]) in
  ImageToVideoPage.create_video W self s
  = (Raised (SameFileError "/pics/img-01.jpg" "/pics/img-01.jpg"), s).
Proof.
  intros W self s.
  apply (first_image_named_img_01_stops_the_page W self s [ ("notes.txt", "N") ] "A"
           [ ("b.png", "B") ]); reflexivity.
Defined.

(** ** Entries that are not images *)







(** ** The speed page *)

Lemma Qtrunc_of_zero x k : Qeq_bool x 0 = true → PyNum.Qtrunc (x * inject_Z k) = 0.
Proof.
  intros H. apply Qeq_bool_eq in H. unfold Qeq in H. simpl in H.
  unfold PyNum.Qtrunc. destruct x as [n d]. simpl in *.
  replace n with 0 by lia. reflexivity.
Qed.

Lemma speed_page_run W str_float self p q s :
  PyStr.mem (ext_of (input_video self)) VIDEO_EXTENSIONS = true →
  PyStr.mem (ext_of (output_video self)) VIDEO_EXTENSIONS = true →
  SpeedPage.speed p = Finite q →
  Qeq_bool q 0 = false →
  let cmd := SpeedPage.cmd str_float self (Finite (1 / q)) in
  SpeedPage.create_video W str_float self p s
  = match spawn W cmd (fs s) with
    | (None, f) => (Raised OSError, {| fs := f; trace := trace s ++ [ Run cmd ] |})
    | (Some pr, f) =>
        if returncode pr =? 0 then
          (Returned tt,
           {| fs := f;
              trace := trace s
                       ++ [ Run cmd;
                            Show (operation_success "Speed change completed successfully.") ] |})
        else
          (Returned tt,
           {| fs := f;
              trace := trace s
                       ++ [ Run cmd;
                            Show (operation_failed
                                    (ExnText "" (CalledProcessError cmd (returncode pr)))) ] |})
    end.
Proof.
  intros Hin Hout Hspeed Hq cmd. subst cmd.
  unfold SpeedPage.create_video. cbv zeta. rewrite Hin, Hout. cbn [negb orb].
  rewrite Hspeed.
  rewrite (bind_returned _ _ s (Finite (1 / q)) s)
    by (unfold lift, PyNum.float_div; by rewrite Hq).
  destruct (spawn W (SpeedPage.cmd str_float self (Finite (1 / q))) (fs s))
    as [[pr|] f] eqn:Hspawn.
  - destruct (Z.eqb_spec (returncode pr) 0) as [Hrc|Hrc].
    + erewrite try_except_returned; [reflexivity|].
      rewrite (bind_returned _ _ _ _ _ (subprocess_run_exit_0 _ _ _ _ _ _ Hspawn Hrc)).
      rewrite show_returns. cbn [fs trace]. rewrite <- !app_assoc. reflexivity.
    + erewrite try_except_raised;
        [|apply bind_raised, (subprocess_run_exit_other _ _ _ _ _ Hspawn Hrc)].
      cbn [on_CalledProcessError]. rewrite show_returns. cbn [fs trace].
      rewrite <- !app_assoc. reflexivity.
  - erewrite try_except_raised;
      [|apply bind_raised, (subprocess_run_not_started _ _ _ _ _ Hspawn)].
    reflexivity.
Qed.

(** X17: a text in the speed box that parses to zero is stored as the
    speed: the value lies below the slider's range, so the slider and the
    text stay as they are, but [self.speed] has already been assigned. The
    next [create_video] then raises [ZeroDivisionError] from [1 / self.speed]
    before anything is shown or started. *)
Theorem typed_zero_speed_makes_create_video_raise W float format_2f str_float self p x s :
  PyStr.mem (ext_of (input_video self)) VIDEO_EXTENSIONS = true →
  PyStr.mem (ext_of (output_video self)) VIDEO_EXTENSIONS = true →
  float (SpeedPage.speed_field p) = Some (Finite x) →
  Qeq_bool x 0 = true →
  SpeedPage.box_changed float format_2f p
  = Returned {| SpeedPage.speed := Finite x;
                SpeedPage.speed_slider := SpeedPage.speed_slider p;
                SpeedPage.speed_field := SpeedPage.speed_field p |}
  ∧ SpeedPage.create_video W str_float self
      {| SpeedPage.speed := Finite x;
         SpeedPage.speed_slider := SpeedPage.speed_slider p;
         SpeedPage.speed_field := SpeedPage.speed_field p |} s
    = (Raised ZeroDivisionError, s).
Proof.
  intros Hin Hout Hfloat Hx. split.
  - unfold SpeedPage.box_changed, PyFloat.of_string. rewrite Hfloat.
    cbn [mbind outcome_bind PyFloat.mul_positive_int PyNum.int_of_float].
    rewrite (Qtrunc_of_zero x SpeedPage.base Hx). reflexivity.
  - unfold SpeedPage.create_video. cbv zeta. rewrite Hin, Hout. cbn [negb orb].
    apply bind_raised. unfold lift, PyNum.float_div. cbn [SpeedPage.speed].
    by rewrite Hx.
Qed.

Lemma typed_zero_speed_makes_create_video_raise_witness :
  let W := Scenario.tools "" "" 0 in
  let float := Decimal.float_of_decimal in
  let self := Scenario.window "/v/in.mp4" "/v/out.mp4" "" 30 60 in
  let p := {| SpeedPage.speed := Finite 1; SpeedPage.speed_slider := 100;
              SpeedPage.speed_field := "0" |} in
  let p' := {| SpeedPage.speed := Finite 0; SpeedPage.speed_slider := 100;
               SpeedPage.speed_field := "0" |} in
  SpeedPage.box_changed float Session.format_2f p = Returned p'
  ∧ SpeedPage.create_video W Session.str_float self p' (initial Scenario.empty_fs)
    = (Raised ZeroDivisionError, initial Scenario.empty_fs).
Proof.
  intros W float self p p'.
  apply (typed_zero_speed_makes_create_video_raise W float Session.format_2f
           Session.str_float self p 0 (initial Scenario.empty_fs)); reflexivity.
Defined.

(** X19: with a finite speed other than zero, whatever its sign or size,
    the speed page starts the encoder exactly once, with the reciprocal of
    the speed as the factor of [setpts] and no audio mapped. An exit status
    other than zero is reported in a message box; an encoder that cannot be
    started raises out of [create_video]. *)
Theorem speed_page_encodes_with_the_reciprocal W str_float self p q s :
  PyStr.mem (ext_of (input_video self)) VIDEO_EXTENSIONS = true →
  PyStr.mem (ext_of (output_video self)) VIDEO_EXTENSIONS = true →
  SpeedPage.speed p = Finite q →
  Qeq_bool q 0 = false →
  let cmd := [ "ffmpeg"; "-y"; "-i"; input_video self; "-filter_complex";
               "[0:v]setpts=" +:+ str_float (1 / q)%Q +:+ "*PTS[v]";
               "-map"; "[v]"; "-c:v"; "libx264"; output_video self ] in
  SpeedPage.create_video W str_float self p s
  = match spawn W cmd (fs s) with
    | (None, f) => (Raised OSError, {| fs := f; trace := trace s ++ [ Run cmd ] |})
    | (Some pr, f) =>
        if returncode pr =? 0 then
          (Returned tt,
           {| fs := f;
              trace := trace s
                       ++ [ Run cmd;
                            Show (operation_success "Speed change completed successfully.") ] |})
        else
          (Returned tt,
           {| fs := f;
              trace := trace s
                       ++ [ Run cmd;
                            Show (operation_failed
                                    (ExnText "" (CalledProcessError cmd (returncode pr)))) ] |})
    end.
Proof. apply speed_page_run. Qed.

Lemma speed_page_encodes_with_the_reciprocal_witness :
  let W := Scenario.tools "" "" 0 in
  let self := Scenario.window "/v/in.mp4" "/v/out.mp4" "" 30 60 in
  let p := {| SpeedPage.speed := Finite 2; SpeedPage.speed_slider := 200;
              SpeedPage.speed_field := "2.00" |} in
  SpeedPage.create_video W Session.str_float self p (initial Scenario.empty_fs)
  = (Returned tt,
     {| fs := Scenario.empty_fs;
        trace := [ Run [ "ffmpeg"; "-y"; "-i"; "/v/in.mp4"; "-filter_complex";
                         "[0:v]setpts=0.5*PTS[v]"; "-map"; "[v]"; "-c:v"; "libx264";
                         "/v/out.mp4" ];
                   Show (operation_success "Speed change completed successfully.") ] |}).
Proof.
  intros W self p.
  apply (speed_page_encodes_with_the_reciprocal W Session.str_float self p 2
           (initial Scenario.empty_fs)); reflexivity.
Defined.



(** ** [CalledProcessError] stays inside the pages *)

Lemma contained_bind {A B} (m : M A) (k : A → M B) :
  (∀ s, escapes_CalledProcessError (m s) = false) →
  (∀ a s, escapes_CalledProcessError (k a s) = false) →
  ∀ s, escapes_CalledProcessError ((m ≫= k) s) = false.
Proof.
  intros Hm Hk s. unfold mbind, M_bind. specialize (Hm s).
  destruct (m s) as [[a|e] s']; [apply Hk | exact Hm].
Qed.

Lemma contained_guard {A} (body : M A) (h : exn → M A) :
  (∀ e s, escapes_CalledProcessError (h e s) = false) →
  ∀ s, escapes_CalledProcessError (try_except body (on_CalledProcessError h) s) = false.
Proof.
  intros Hh s. unfold try_except.
  destruct (body s) as [[a|e] s']; [reflexivity|].
  destruct e; cbn [on_CalledProcessError]; try reflexivity. apply Hh.
Qed.

Lemma contained_finally {A} (body : M A) (final : M unit) :
  (∀ s, escapes_CalledProcessError (body s) = false) →
  (∀ s, escapes_CalledProcessError (final s) = false) →
  ∀ s, escapes_CalledProcessError (try_finally body final s) = false.
Proof.
  intros Hbody Hfinal s. unfold try_finally. specialize (Hbody s).
  destruct (body s) as [r s']. specialize (Hfinal s').
  destruct (final s') as [[u|e] s'']; [exact Hbody | exact Hfinal].
Qed.

Lemma contained_show {A} m (k : M A) :
  (∀ s, escapes_CalledProcessError (k s) = false) →
  ∀ s, escapes_CalledProcessError ((show m ;; k) s) = false.
Proof. intros Hk. apply contained_bind; [reflexivity | intros _; exact Hk]. Qed.

Lemma contained_unchecked_run W cmd s :
  escapes_CalledProcessError (subprocess_run W false cmd s) = false.
Proof. unfold subprocess_run. by destruct (spawn W cmd (fs s)) as [[p|] f]. Qed.

Lemma contained_has_audio W path s :
  escapes_CalledProcessError (FFmpegGUI.has_audio W path s) = false.
Proof.
  unfold FFmpegGUI.has_audio.
  apply contained_bind; [apply contained_unchecked_run | reflexivity].
Qed.

Lemma contained_for_each {A} (body : A → M unit) xs :
  (∀ x s, escapes_CalledProcessError (body x s) = false) →
  ∀ s, escapes_CalledProcessError (for_each xs body s) = false.
Proof.
  intros Hbody. induction xs as [|x xs IH]; [reflexivity|].
  cbn [for_each]. apply contained_bind; [apply Hbody | intros _; exact IH].
Qed.

Lemma contained_fix_naming_loop dir images :
  ∀ num s, escapes_CalledProcessError (ImageToVideoPage.fix_naming_loop dir images num s)
           = false.
Proof.
  induction images as [|image rest IH]; intros num; [reflexivity|].
  cbn [ImageToVideoPage.fix_naming_loop].
  destruct (PyStr.mem (ext_of image) IMAGE_EXTENSIONS); [|apply IH].
  apply contained_bind; [|intros _; apply IH].
  intros s. unfold OS.shutil_copy. cbv zeta.
  destruct (_ && _); [reflexivity|]. by destruct (OS.read image _).
Qed.

(** X21: a failed encoder never raises out of a page. On all six pages,
    for every window, every input of the page, every file system and every
    behaviour of the external programs, the operation does not end in
    [subprocess.CalledProcessError]: each checked invocation is guarded, and
    the unchecked metadata queries do not raise it. What can still leave a
    page are the other errors: [ZeroDivisionError], [KeyError], a program
    that cannot be started, a copy that fails. *)
Theorem encoder_failures_never_escape_a_page W str_float self boxes page s :
  escapes_CalledProcessError (Compress10MBPage.create_video W self s) = false
  ∧ escapes_CalledProcessError (TrimPage.create_video W str_float self boxes s) = false
  ∧ escapes_CalledProcessError (SpeedPage.create_video W str_float self page s) = false
  ∧ escapes_CalledProcessError (CatPage.create_video W self s) = false
  ∧ escapes_CalledProcessError (ImageToVideoPage.create_video W self s) = false
  ∧ escapes_CalledProcessError (ExtractSoundPage.extract_audio W self s) = false.
Proof.
  repeat split.
  - unfold Compress10MBPage.create_video. cbv zeta.
    destruct (_ || _); [reflexivity|]. revert s.
    apply contained_bind.
    { intros s. unfold lift, Compress10MBPage.video_bitrate, PyNum.int_truediv.
      by destruct (_ =? 0). }
    intros b. apply contained_bind.
    { apply contained_guard. intros e. by apply contained_show. }
    intros [] s; [|reflexivity]. revert s.
    apply contained_finally.
    + apply contained_guard. reflexivity.
    + intros s. by rewrite remove_log_files_spec.
  - unfold TrimPage.create_video. cbv zeta.
    destruct (_ || _); [reflexivity|]. revert s.
    apply contained_bind.
    { intros s. unfold lift, TrimPage.get_start_and_end_trim, TrimPage.offset,
        PyNum.int_truediv.
      destruct (frame_rate self =? 0); reflexivity. }
    intros [start end_] s. destruct (Qle_bool end_ start); [reflexivity|]. revert s.
    apply contained_bind; [apply contained_has_audio|].
    intros audio. apply contained_guard. reflexivity.
  - unfold SpeedPage.create_video. cbv zeta.
    destruct (_ || _); [reflexivity|]. revert s.
    apply contained_bind.
    { intros s. unfold lift, PyNum.float_div.
      destruct (SpeedPage.speed page) as [q|sign|]; [|reflexivity|reflexivity].
      destruct (Qeq_bool q 0); reflexivity. }
    intros speed. apply contained_guard. reflexivity.
  - unfold CatPage.create_video. cbv zeta.
    destruct (_ || _); [reflexivity|]. revert s.
    apply contained_guard. reflexivity.
  - unfold ImageToVideoPage.create_video. cbv zeta.
    destruct (negb _); [reflexivity|]. revert s.
    apply contained_bind.
    { unfold ImageToVideoPage.fix_naming. apply contained_bind; [reflexivity|].
      intros images. apply contained_fix_naming_loop. }
    intros _. apply contained_guard. reflexivity.
  - unfold ExtractSoundPage.extract_audio. cbv zeta. revert s.
    apply contained_bind.
    { destruct (negb _); [reflexivity|].
      apply contained_bind; [apply contained_has_audio|].
      intros audio s. by destruct (negb audio). }
    intros [] s.
    { destruct (negb _); [reflexivity|]. by destruct (negb _). }
    revert s. apply contained_bind.
    { intros s. unfold ExtractSoundPage.codec_for. by destruct (AUDIO_CODEC_MAP !! _). }
    intros codec. apply contained_guard. reflexivity.
Qed.
